(** * Tower report: grouping, aggregation and reshaping of sector records

    A shallow embedding of [process_company_data] from
    [format_change_all_companies.py], and the properties of its core
    (group by [record_id], aggregate, reshape).

    What is modelled, and how:
    - a cell of a pandas frame is a [cell]: text, an integer (int64 column)
      or a binary64 float (float64 column); the missing value of pandas is
      the float NaN.  Floats are Rocq's primitive binary64 floats, so sums
      and comparisons are the IEEE ones of the Python program;
    - Python's two conversions between text and floats, [float(str)] and
      [str(float)], belong to the interpreter and not to the program: they
      are the two operations of the class [PyText], and every theorem holds
      for every instance.  [CPython.text] is the instance used where a
      statement is evaluated on concrete text;
    - [pd.read_csv] is outside the core: the frame it returns is the input,
      a list of [InputRow] in file order.  A column of integers only is an
      int64 column, a column of floats only a float64 column, any other
      column an object column, which can hold integers, floats and text
      side by side (as [read_csv] makes it for a large file read in chunks);
    - keys are compared as pandas compares the values of the column: two
      numbers by their exact values, whether integers or floats (7 and 7.0
      are one key), two texts by code point, and a number comes before a
      text;
    - [iloc[0]] takes a row out of the frame as a Series of one dtype: in a
      frame whose columns are all int64 or float64, one of them float64,
      the integers of the row come out as floats; in every other frame the
      row holds the values of the frame as they are;
    - exceptions are the [Raise] results of an error monad: the first
      exception ends the call, as in Python;
    - the workbook is a list of named sheets threaded through the call, and
      the writer of lines 83-89 is modelled on the writes it accepts: the
      refusals of [openpyxl] (a sheet name it does not take, a character it
      does not write, a name that differs from an existing one by case
      only) are outside the model, and every statement about a written
      workbook is about a call that returned.  Header styling (fill and
      font of the first row) is presentation and is left out.
    The semantics of pandas followed here is that of its 1.x and 2.x
    releases: [groupby] with its defaults [sort=True] and [dropna=True],
    [astype(str)] giving Python's [str] of every value, [str.replace]
    replacing literal text. *)

From Stdlib Require Import ZArith List String Ascii Bool Lia Floats.
From Stdlib Require Import DecimalString Permutation Sorted OrderedTypeEx.
Import ListNotations.
Local Open Scope string_scope.
Local Open Scope list_scope.

(* ================================================================== *)
(** * Values *)

(** A value held in a frame or in a [row_result] dictionary. *)
Inductive cell : Type :=
| VStr (s : string)
| VInt (z : Z)
| VFloat (f : float).

(** [pd.isna]: the missing value is the float NaN. *)
Definition isna (c : cell) : bool :=
  match c with
  | VFloat f => is_nan f
  | _ => false
  end.

Definition notna (c : cell) : bool := negb (isna c).

(** The interpreter's conversions between text and floats. *)
Class PyText : Type := {
  (** [float(s)] for a [str]; [None] is [ValueError]. *)
  float_of_str : string -> option float;
  (** [str(x)] for a [float]. *)
  str_of_float : float -> string
}.

(** [float(n)] for an integer: the nearest binary64 value, ties to even. *)
Definition float_of_Z (z : Z) : float :=
  SF2Prim (binary_normalize prec emax z 0 false).

(** [str(n)] for an integer. *)
Definition str_of_Z (z : Z) : string := NilZero.string_of_int (Z.to_int z).

(** Exceptions the call can end with. *)
Inductive exn : Type := ValueError | TypeError | KeyError | IndexError.

Inductive result (A : Type) : Type :=
| Ok (a : A)
| Raise (e : exn).
Arguments Ok {A} a.
Arguments Raise {A} e.

Definition bind {A B : Type} (m : result A) (k : A -> result B) : result B :=
  match m with
  | Ok a => k a
  | Raise e => Raise e
  end.

Notation "'do' x <- m ;; k" := (bind m (fun x => k))
  (at level 10, x name, m at level 100, k at level 200).

(** A [for] loop that builds a list and stops at the first exception. *)
Fixpoint mapM {A B : Type} (f : A -> result B) (l : list A) : result (list B) :=
  match l with
  | [] => Ok []
  | a :: l' => do b <- f a ;; do bs <- mapM f l' ;; Ok (b :: bs)
  end.

(** [sep.join(l)]. *)
Fixpoint join (sep : string) (l : list string) : string :=
  match l with
  | [] => ""
  | [s] => s
  | s :: l' => s ++ sep ++ join sep l'
  end.

(** [s.replace(old, new)] for a non-empty [old]: occurrences are found from
    the left and do not overlap.  [skip] counts the characters of the
    occurrence just replaced that are still to be passed over. *)
Fixpoint replace_from (old new : string) (skip : nat) (s : string) : string :=
  match s with
  | EmptyString => EmptyString
  | String c s' =>
      match skip with
      | S k => replace_from old new k s'
      | O =>
          if prefix old s
          then new ++ replace_from old new (String.length old - 1) s'
          else String c (replace_from old new 0 s')
      end
  end.

Definition replace (old new s : string) : string := replace_from old new 0 s.

Section Conversions.
Context {py : PyText}.

(** [str(x)]. *)
Definition py_str (c : cell) : string :=
  match c with
  | VStr s => s
  | VInt z => str_of_Z z
  | VFloat f => str_of_float f
  end.

(** [float(x)]; only text can fail to convert. *)
Definition py_float (c : cell) : result float :=
  match c with
  | VStr s =>
      match float_of_str s with
      | Some f => Ok f
      | None => Raise ValueError
      end
  | VInt z => Ok (float_of_Z z)
  | VFloat f => Ok f
  end.
End Conversions.

(** The number a numeric cell stands for. *)
Definition number (c : cell) : option float :=
  match c with
  | VStr _ => None
  | VInt z => Some (float_of_Z z)
  | VFloat f => Some f
  end.

(* ================================================================== *)
(** * Frames *)

(** One row of the frame [df] read with [usecols=use_cols]. *)
Record InputRow : Type := {
  Tier_4_id : cell;
  record_id : cell;
  area_name : cell;
  latitude : cell;
  longitude : cell;
  structure_height : cell;
  tx_ant_azimuth : cell;
  licence_category : cell;
  technology : cell;
  tx_power : cell;
  bandwidth : cell
}.

Definition DataFrame : Type := list InputRow.

(** The columns of the frame, in the order of [use_cols]. *)
Definition columns : list (InputRow -> cell) :=
  [Tier_4_id; record_id; area_name; latitude; longitude; structure_height;
   tx_ant_azimuth; licence_category; technology; tx_power; bandwidth].

Definition is_int (c : cell) : bool :=
  match c with VInt _ => true | _ => false end.

Definition is_float (c : cell) : bool :=
  match c with VFloat _ => true | _ => false end.

Definition is_number (c : cell) : bool :=
  match c with VStr _ => false | _ => true end.

(** The dtypes of a column of numbers: int64 when it holds integers only,
    float64 when it holds floats only (a missing entry is the float NaN).
    Any other column is an object column. *)
Definition int64_dtype (col : list cell) : bool := forallb is_int col.

Definition float64_dtype (col : list cell) : bool := forallb is_float col.

(** An integer taken into a float64 array. *)
Definition upcast (c : cell) : cell :=
  match c with
  | VInt z => VFloat (float_of_Z z)
  | _ => c
  end.

(** A row taken out of a frame is a Series, which has one dtype, the common
    dtype of the columns: float64 when every column is int64 or float64 and
    one at least is float64.  The integers of such a row are floats. *)
Definition float_rows (df : DataFrame) : bool :=
  forallb (fun col => int64_dtype (map col df) || float64_dtype (map col df))
          columns
  && existsb (fun col => float64_dtype (map col df)) columns.

(** The value of the entry [c] in a row taken out of the frame. *)
Definition row_value (float_row : bool) (c : cell) : cell :=
  if float_row then upcast c else c.

(* ================================================================== *)
(** * Grouping keys *)

(** Python compares an [int] with a [float] by their exact values, not by
    the float of the integer.  Every finite binary64 number is a whole
    number of units of 2^-1074, the spacing of the smallest ones, and so is
    every integer: [Units z] is the number [z * 2^-1074]. *)
Inductive exact : Type :=
| NegInf
| Units (z : Z)
| PosInf.

Definition exact_of_Z (z : Z) : exact := Units (z * 2 ^ 1074).
Arguments exact_of_Z : simpl never.

Definition exact_of_SF (x : spec_float) : option exact :=
  match x with
  | S754_zero _ => Some (Units 0)
  | S754_infinity s => Some (if s then NegInf else PosInf)
  | S754_nan => None
  | S754_finite s m e =>
      Some (Units ((if s then Z.neg m else Z.pos m) * 2 ^ (e + 1074)))
  end.

(** [None] is NaN, which is no number. *)
Definition exact_of_float (f : float) : option exact := exact_of_SF (Prim2SF f).

Definition exact_ltb (a b : exact) : bool :=
  match a, b with
  | NegInf, NegInf => false
  | NegInf, _ => true
  | Units x, Units y => (x <? y)%Z
  | Units _, PosInf => true
  | _, _ => false
  end.

Definition exact_eqb (a b : exact) : bool :=
  match a, b with
  | NegInf, NegInf => true
  | Units x, Units y => (x =? y)%Z
  | PosInf, PosInf => true
  | _, _ => false
  end.

(** [x < y] and [x == y] for an [int] and a [float]; both are false when the
    float is NaN. *)
Definition Z_ltb_float (x : Z) (y : float) : bool :=
  match exact_of_float y with
  | Some v => exact_ltb (exact_of_Z x) v
  | None => false
  end.

Definition float_ltb_Z (x : float) (y : Z) : bool :=
  match exact_of_float x with
  | Some v => exact_ltb v (exact_of_Z y)
  | None => false
  end.

Definition Z_eqb_float (x : Z) (y : float) : bool :=
  match exact_of_float y with
  | Some v => exact_eqb (exact_of_Z x) v
  | None => false
  end.

(** Equality of two keys, as [groupby] sees it: two numbers are one key
    when their values are equal, an integer and a float too.  NaN equals
    nothing here: rows with a NaN key are dropped before keys are compared. *)
Definition key_eqb (a b : cell) : bool :=
  match a, b with
  | VStr x, VStr y => String.eqb x y
  | VInt x, VInt y => Z.eqb x y
  | VFloat x, VFloat y => PrimFloat.eqb x y
  | VInt x, VFloat y => Z_eqb_float x y
  | VFloat x, VInt y => Z_eqb_float y x
  | _, _ => false
  end.

(** The order [groupby] sorts keys by: numbers by value, text by code
    point (byte order of UTF-8 text is code point order), and in a column
    that holds both, the numbers before the texts. *)
Definition key_ltb (a b : cell) : bool :=
  match a, b with
  | VStr x, VStr y => String.ltb x y
  | VInt x, VInt y => Z.ltb x y
  | VFloat x, VFloat y => PrimFloat.ltb x y
  | VInt x, VFloat y => Z_ltb_float x y
  | VFloat x, VInt y => float_ltb_Z x y
  | VStr _, _ => false
  | _, VStr _ => true
  end.

(** The distinct keys, each at its first occurrence. *)
Fixpoint unique (keys : list cell) : list cell :=
  match keys with
  | [] => []
  | k :: ks => k :: filter (fun k' => negb (key_eqb k' k)) (unique ks)
  end.

Fixpoint insert_key (k : cell) (l : list cell) : list cell :=
  match l with
  | [] => [k]
  | x :: l' => if key_ltb x k then x :: insert_key k l' else k :: l
  end.

Definition sort_keys (keys : list cell) : list cell :=
  fold_right insert_key [] keys.

(** The keys [df.groupby(name_groupby)] iterates over: NaN keys dropped
    ([dropna=True]), duplicates removed, sorted ([sort=True]). *)
Definition group_keys (df : DataFrame) : list cell :=
  sort_keys (unique (filter notna (map record_id df))).

(** The rows of one group, in the order of the frame. *)
Definition group_rows (df : DataFrame) (k : cell) : DataFrame :=
  filter (fun r => key_eqb (record_id r) k) df.

(** [df.groupby(name_groupby)], line 31: the pairs [(group_name, group_df)]
    in iteration order. *)
Definition groupby (df : DataFrame) : list (cell * DataFrame) :=
  map (fun k => (k, group_rows df k)) (group_keys df).

(* ================================================================== *)
(** * Aggregation (lines 30-49) *)

(** The dictionary [row_result] built for one group. *)
Module Agg.
Record t : Type := {
  Tier_4_id : cell;
  record_id : cell;
  latitude : cell;
  longitude : cell;
  structure_height : cell;
  licence_category : string;
  tx_ant_azimuth : string;
  technology : string;
  bandwidth : string;
  tx_power : string;
  _4G_BW : cell;
  _5G_BW : cell
}.
End Agg.

(** [acc += bw] on an accumulator that starts as the integer 0. *)
Definition iadd (acc : cell) (bw : float) : result cell :=
  match acc with
  | VInt z => Ok (VFloat (float_of_Z z + bw))
  | VFloat a => Ok (VFloat (a + bw))
  | VStr _ => Raise TypeError
  end.

Section Aggregation.
Context {py : PyText}.

(** ['~'.join(group_df[col].astype(str).tolist())], line 36. *)
Definition joined (col : InputRow -> cell) (group_df : DataFrame) : string :=
  join "~" (map (fun r => py_str (col r)) group_df).

(** The loop over [group_df.iterrows()], lines 41-47; [bw4] and [bw5]
    are [row_result['4G_BW']] and [row_result['5G_BW']].  The rows are read
    as the frame holds them: where [iterrows] hands out an integer as a
    float, [float] gives the same number for both, and the text of neither
    is a technology. *)
Fixpoint sum_bandwidth (rows : DataFrame) (bw4 bw5 : cell)
  : result (cell * cell) :=
  match rows with
  | [] => Ok (bw4, bw5)
  | row :: rest =>
      let tech := py_str (technology row) in
      do bw <- py_float (bandwidth row) ;;
      if tech =? "LTE" then
        do bw4' <- iadd bw4 bw ;; sum_bandwidth rest bw4' bw5
      else if tech =? "5G" then
        do bw5' <- iadd bw5 bw ;; sum_bandwidth rest bw4 bw5'
      else sum_bandwidth rest bw4 bw5
  end.

(** The body of the loop over the groups, lines 32-49.  The entry
    [record_id] first set to [group_name] is set again from the first row
    of the group; [iloc[0]] of an empty frame raises [IndexError].
    [float_row] tells whether the rows of the frame are float64 Series: a
    group has the columns, and so the dtypes, of the frame it is cut from. *)
Definition aggregate_group (float_row : bool) (group_name : cell)
    (group_df : DataFrame) : result Agg.t :=
  match group_df with
  | [] => Raise IndexError
  | first :: _ =>
      do acc <- sum_bandwidth group_df (VInt 0) (VInt 0) ;;
      Ok {| Agg.Tier_4_id := row_value float_row (Tier_4_id first);
            Agg.record_id := row_value float_row (record_id first);
            Agg.latitude := row_value float_row (latitude first);
            Agg.longitude := row_value float_row (longitude first);
            Agg.structure_height := row_value float_row (structure_height first);
            Agg.licence_category := joined licence_category group_df;
            Agg.tx_ant_azimuth := joined tx_ant_azimuth group_df;
            Agg.technology := joined technology group_df;
            Agg.bandwidth := joined bandwidth group_df;
            Agg.tx_power := joined tx_power group_df;
            Agg._4G_BW := fst acc;
            Agg._5G_BW := snd acc |}
  end.

(** The list [results] after the loop, line 49. *)
Definition aggregate (df : DataFrame) : result (list Agg.t) :=
  mapM (fun g => aggregate_group (float_rows df) (fst g) (snd g)) (groupby df).
End Aggregation.

(* ================================================================== *)
(** * Reshaping (lines 51-81) *)

(** The dtype [pd.DataFrame] infers for a column of Python values: integers
    together with floats make a float64 column, whose integers become
    floats; any other column keeps its values. *)
Definition float64_column (col : list cell) : bool :=
  forallb is_number col && existsb is_float col.

Definition infer (col : list cell) (c : cell) : cell :=
  if float64_column col then upcast c else c.

(** A row of [pd.DataFrame(results)]: the columns of numbers take their
    dtype from the whole list, the columns of joined text are as they were. *)
Definition typed_row (results : list Agg.t) (a : Agg.t) : Agg.t :=
  {| Agg.Tier_4_id := infer (map Agg.Tier_4_id results) (Agg.Tier_4_id a);
     Agg.record_id := infer (map Agg.record_id results) (Agg.record_id a);
     Agg.latitude := infer (map Agg.latitude results) (Agg.latitude a);
     Agg.longitude := infer (map Agg.longitude results) (Agg.longitude a);
     Agg.structure_height :=
       infer (map Agg.structure_height results) (Agg.structure_height a);
     Agg.licence_category := Agg.licence_category a;
     Agg.tx_ant_azimuth := Agg.tx_ant_azimuth a;
     Agg.technology := Agg.technology a;
     Agg.bandwidth := Agg.bandwidth a;
     Agg.tx_power := Agg.tx_power a;
     Agg._4G_BW := infer (map Agg._4G_BW results) (Agg._4G_BW a);
     Agg._5G_BW := infer (map Agg._5G_BW results) (Agg._5G_BW a) |}.

(** [pd.DataFrame(results)], line 51. *)
Definition DataFrame_of (results : list Agg.t) : list Agg.t :=
  map (typed_row results) results.

(** One row of the final table, under the destination names. *)
Module Out.
Record t : Type := {
  Code : cell;
  Name : string;
  Province : string;
  Tower_ID : cell;
  Licensee : string;
  LATITUDE : cell;
  LONGITUDE : cell;
  Height_m : cell;
  Type_ : string;
  Micro : cell;
  Macro : cell;
  TX_ANT_AZI : string;
  SERVICES : string;
  TECHNOLOGY : string;
  TR_BW_BLOCS : string;
  _4G_BW : cell;
  _5G_BW : cell;
  TX_PWR : string
}.
End Out.

(** [lambda x: 'Micro' if x < 10 else 'Macro'], line 71; comparing text
    with a number raises [TypeError]. *)
Definition site_type (x : cell) : result string :=
  match x with
  | VInt z => Ok (if (z <? 10)%Z then "Micro" else "Macro")
  | VFloat f => Ok (if (f <? 10)%float then "Micro" else "Macro")
  | VStr _ => Raise TypeError
  end.

(** [lambda x: 1 if x == kind else '-'], lines 72 and 73. *)
Definition marker (kind x : string) : cell :=
  if x =? kind then VInt 1 else VStr "-".

(** Lines 54-75 for one row: the renaming and the added and rewritten
    columns.  Only the comparison of line 71 can raise. *)
Definition transform_row (province licensee_name : string) (a : Agg.t)
  : result Out.t :=
  do ty <- site_type (Agg.structure_height a) ;;
  Ok {| Out.Code := Agg.Tier_4_id a;
        Out.Name := " ";
        Out.Province := province;
        Out.Tower_ID := Agg.record_id a;
        Out.Licensee := licensee_name;
        Out.LATITUDE := Agg.latitude a;
        Out.LONGITUDE := Agg.longitude a;
        Out.Height_m := Agg.structure_height a;
        Out.Type_ := ty;
        Out.Micro := marker "Micro" ty;
        Out.Macro := marker "Macro" ty;
        Out.TX_ANT_AZI := Agg.tx_ant_azimuth a;
        Out.SERVICES := replace "~" "|" (Agg.licence_category a);
        Out.TECHNOLOGY := replace "LTE" "4G" (Agg.technology a);
        Out.TR_BW_BLOCS := Agg.bandwidth a;
        Out._4G_BW := Agg._4G_BW a;
        Out._5G_BW := Agg._5G_BW a;
        Out.TX_PWR := Agg.tx_power a |}.

(** Lines 51-75.  A frame made from an empty list has no column, and
    [results["Height (m)"]] then raises [KeyError]. *)
Definition transform (province licensee_name : string) (results : list Agg.t)
  : result (list Out.t) :=
  match results with
  | [] => Raise KeyError
  | _ => mapM (transform_row province licensee_name) (DataFrame_of results)
  end.

(** The destination schema, line 78. *)
Definition final_columns : list string :=
  ["Code"; "Name"; "Province"; "Tower ID"; "Licensee"; "LATITUDE"; "LONGITUDE";
   "Height (m)"; "Type"; "Micro"; "Macro"; "TX_ANT_AZI"; "SERVICES";
   "TECHNOLOGY"; "TR_BW_BLOCS"; "4G_BW"; "5G_BW"; "TX_PWR"].

(** The values of a row in the order of [final_columns], line 81. *)
Definition values (r : Out.t) : list cell :=
  [Out.Code r; VStr (Out.Name r); VStr (Out.Province r); Out.Tower_ID r;
   VStr (Out.Licensee r); Out.LATITUDE r; Out.LONGITUDE r; Out.Height_m r;
   VStr (Out.Type_ r); Out.Micro r; Out.Macro r; VStr (Out.TX_ANT_AZI r);
   VStr (Out.SERVICES r); VStr (Out.TECHNOLOGY r); VStr (Out.TR_BW_BLOCS r);
   Out._4G_BW r; Out._5G_BW r; VStr (Out.TX_PWR r)].

(* ================================================================== *)
(** * The workbook (lines 83-89) *)

(** A sheet as [to_excel(index=False)] writes it: the header row and the
    rows of values. *)
Record Sheet : Type := {
  header : list string;
  body : list (list cell)
}.

Definition Workbook : Type := list (string * Sheet).

Definition sheet_of (rows : list Out.t) : Sheet :=
  {| header := final_columns; body := map values rows |}.

(** Writing in mode ["a"] with [if_sheet_exists="replace"]: a sheet of that
    name is replaced where it stands, a new name is added at the end.  This
    is the write the writer accepts: what [openpyxl] refuses (a sheet name
    with a character it does not take, a cell with a character it does not
    write, a name that differs only by case from that of another sheet, for
    which it writes under a changed name and line 93 then finds no sheet)
    ends the real call with an exception after line 84, and no such call is
    described here. *)
Fixpoint write_sheet (sheet_name : string) (sh : Sheet) (book : Workbook)
  : Workbook :=
  match book with
  | [] => [(sheet_name, sh)]
  | (n, s) :: book' =>
      if n =? sheet_name then (sheet_name, sh) :: book'
      else (n, s) :: write_sheet sheet_name sh book'
  end.

(** Lines 83-89 for a write the writer accepts; [None] is the workbook
    file not existing yet. *)
Definition to_excel (file : option Workbook) (sheet_name : string) (sh : Sheet)
  : Workbook :=
  match file with
  | Some book => write_sheet sheet_name sh book
  | None => [(sheet_name, sh)]
  end.

Fixpoint find_sheet (sheet_name : string) (book : Workbook) : option Sheet :=
  match book with
  | [] => None
  | (n, s) :: book' => if n =? sheet_name then Some s else find_sheet sheet_name book'
  end.

Section Program.
Context {py : PyText}.

(** The table of lines 30-81, before it is written. *)
Definition report (df : DataFrame) (licensee_name province : string)
  : result (list Out.t) :=
  do results <- aggregate df ;;
  transform province licensee_name results.

(** [process_company_data], with the frame read from [input_csv] in place
    of the path and the content of the workbook file in place of
    [workbook_name]; the result is the content of the file afterwards.
    [Raise] is an exception of lines 30-81, raised before the writer is
    opened; [Ok] is a call that returned, the writer having accepted the
    write. *)
Definition process_company_data (df : DataFrame)
    (company_name licensee_name province sheet_name : string)
    (file : option Workbook) : result Workbook :=
  do rows <- report df licensee_name province ;;
  Ok (to_excel file sheet_name (sheet_of rows)).
End Program.

(* ================================================================== *)
(** * The conversions of CPython *)

(** [float(s)] rounds the decimal to the nearest binary64 value, and
    [str(x)] is the shortest decimal that [float] reads back as [x].  Text
    outside ASCII is refused here, where CPython also takes the other
    decimal digits and spaces of Unicode. *)
Module CPython.
Local Open Scope Z_scope.

Definition code (c : ascii) : nat := nat_of_ascii c.

Definition is_space (c : ascii) : bool :=
  let n := code c in
  ((9 <=? n) && (n <=? 13) || (n =? 32))%nat.

Definition is_digit (c : ascii) : bool :=
  let n := code c in ((48 <=? n) && (n <=? 57))%nat.

Definition digit (c : ascii) : Z := Z.of_nat (code c) - 48.

Definition lower (c : ascii) : ascii :=
  let n := code c in
  if ((65 <=? n) && (n <=? 90))%nat then ascii_of_nat (n + 32) else c.

Fixpoint lstrip (s : list ascii) : list ascii :=
  match s with
  | c :: s' => if is_space c then lstrip s' else s
  | [] => []
  end.

Definition strip (s : list ascii) : list ascii :=
  rev (lstrip (rev (lstrip s))).

(** Underscores are dropped; each must stand between two digits. *)
Fixpoint drop_underscores (prev_digit : bool) (s : list ascii)
  : option (list ascii) :=
  match s with
  | [] => Some []
  | c :: s' =>
      if Ascii.eqb c "_" then
        match s' with
        | d :: _ =>
            if prev_digit && is_digit d then drop_underscores false s'
            else None
        | [] => None
        end
      else option_map (cons c) (drop_underscores (is_digit c) s')
  end.

(** The leading digits of [s], as a number, their count and the rest. *)
Fixpoint digits (acc : Z) (n : Z) (s : list ascii) : Z * Z * list ascii :=
  match s with
  | c :: s' =>
      if is_digit c then digits (10 * acc + digit c) (n + 1) s'
      else (acc, n, s)
  | [] => (acc, n, [])
  end.

Definition sign (s : list ascii) : bool * list ascii :=
  match s with
  | c :: s' =>
      if Ascii.eqb c "-" then (true, s')
      else if Ascii.eqb c "+" then (false, s')
      else (false, s)
  | [] => (false, [])
  end.

(** The binary64 value nearest to [m * 10 ^ e10], for [m >= 0]. *)
Definition of_decimal (neg : bool) (m e10 : Z) : float :=
  match m with
  | Zpos _ =>
      let num := Z.to_pos (m * 10 ^ Z.max e10 0) in
      let den := Z.to_pos (10 ^ Z.max (- e10) 0) in
      SF2Prim (SFdiv prec emax (S754_finite neg num 0) (S754_finite false den 0))
  | _ => if neg then neg_zero else zero
  end.

(** The exponent part: empty, or [e] with an optional sign and digits. *)
Definition exponent (s : list ascii) : option Z :=
  match s with
  | [] => Some 0
  | c :: s' =>
      if Ascii.eqb (lower c) "e" then
        let (neg, s'') := sign s' in
        match digits 0 0 s'' with
        | (e, n, []) => if 0 <? n then Some (if neg then - e else e) else None
        | _ => None
        end
      else None
  end.

Definition number (neg : bool) (s : list ascii) : option float :=
  let '(i, ni, s1) := digits 0 0 s in
  let '(m, nf, s2) :=
    match s1 with
    | c :: s1' => if Ascii.eqb c "." then digits i 0 s1' else (i, 0, s1)
    | [] => (i, 0, [])
    end in
  if 0 <? ni + nf then
    option_map (fun e => of_decimal neg m (e - nf)) (exponent s2)
  else None.

Definition parse_float (s : string) : option float :=
  let chars := list_ascii_of_string s in
  if forallb (fun c => (code c <? 128)%nat) chars then
    match drop_underscores false (strip chars) with
    | Some t =>
        let (neg, body) := sign t in
        let word := string_of_list_ascii (map lower body) in
        if ((word =? "inf") || (word =? "infinity"))%string then
          Some (if neg then neg_infinity else infinity)
        else if (word =? "nan")%string then Some nan
        else number neg body
    | None => None
    end
  else None.

Definition str_of_nat_Z (z : Z) : string := NilZero.string_of_uint (N.to_uint (Z.to_N z)).

Fixpoint zeros (n : nat) : string :=
  match n with O => "" | S n' => String "0" (zeros n') end.

(** [k] with [10 ^ k <= num / den < 10 ^ (k + 1)], searched upwards from
    an estimate that is never above it. *)
Fixpoint decimal_exponent (fuel : nat) (num den k : Z) : Z :=
  match fuel with
  | O => k
  | S fuel' =>
      if (den * 10 ^ Z.max (k + 1) 0 <=? num * 10 ^ Z.max (- (k + 1)) 0)%Z
      then decimal_exponent fuel' num den (k + 1)
      else k
  end.

(** The shortest digits that read back as [x = num / den]: the digits as a
    number and the exponent of ten of their last digit. *)
Fixpoint shortest (fuel : nat) (x : float) (num den k p : Z) : Z * Z :=
  let e10 := k + 1 - p in
  let n := num * 10 ^ Z.max (- e10) 0 in
  let d := den * 10 ^ Z.max e10 0 in
  let lo := n / d in
  let hi := lo + 1 in
  let back c := (of_decimal false c e10 =? x)%float in
  let lo_nearer := (2 * (n - lo * d) <=? d)%Z in
  match fuel with
  | O => (lo, e10)
  | S fuel' =>
      if back lo && (lo_nearer || negb (back hi)) then (lo, e10)
      else if back hi then (hi, e10)
      else shortest fuel' x num den k (p + 1)
  end.

Fixpoint strip_zeros (fuel : nat) (c e10 : Z) : Z * Z :=
  match fuel with
  | O => (c, e10)
  | S fuel' =>
      if (c mod 10 =? 0)%Z then strip_zeros fuel' (c / 10) (e10 + 1)
      else (c, e10)
  end.

(** The layout of [repr]: [digits] is the digit string and [decpt] the
    place of the decimal point, counted from its first digit. *)
Definition layout (ds : string) (decpt : Z) : string :=
  let n := Z.of_nat (String.length ds) in
  if ((decpt <=? -4) || (16 <? decpt))%Z then
    let e := decpt - 1 in
    let mant :=
      match ds with
      | String c EmptyString => ds
      | String c rest => String c ("." ++ rest)
      | EmptyString => ds
      end in
    let es := str_of_nat_Z (Z.abs e) in
    mant ++ "e" ++ (if (e <? 0)%Z then "-" else "+")
         ++ (if (Z.abs e <? 10)%Z then "0" else "") ++ es
  else if (decpt <=? 0)%Z then "0." ++ zeros (Z.to_nat (- decpt)) ++ ds
  else if (n <=? decpt)%Z then ds ++ zeros (Z.to_nat (decpt - n)) ++ ".0"
  else substring 0 (Z.to_nat decpt) ds ++ "."
       ++ substring (Z.to_nat decpt) (Z.to_nat (n - decpt)) ds.

Definition repr_float (x : float) : string :=
  match Prim2SF x with
  | S754_nan => "nan"
  | S754_infinity s => if s then "-inf" else "inf"
  | S754_zero s => if s then "-0.0" else "0.0"
  | S754_finite s m e =>
      let num := (Zpos m * 2 ^ Z.max e 0)%Z in
      let den := (2 ^ Z.max (- e) 0)%Z in
      let k0 := ((Z.log2 num - Z.log2 den - 1) * 30102 / 100000 - 1)%Z in
      let k := decimal_exponent 4 num den k0 in
      let (c0, e0) := shortest 17 (abs x) num den k 1 in
      let (c, e10) := strip_zeros 17 c0 e0 in
      let ds := str_of_nat_Z c in
      (if s then "-" else "")
        ++ layout ds (e10 + Z.of_nat (String.length ds))
  end.

Definition text : PyText :=
  {| float_of_str := parse_float; str_of_float := repr_float |}.
End CPython.

(* ================================================================== *)
(** * Notions used in the statements *)

(** The strict order of keys, and lists of keys no two of which are equal. *)
Definition key_lt (a b : cell) : Prop := key_ltb a b = true.

(** The value of a key: the exact value of a number, whether the cell holds
    it as an integer or as a float, or a text.  NaN has no value. *)
Inductive value : Type :=
| Number (v : exact)
| Text (s : string).

Definition key_value (c : cell) : option value :=
  match c with
  | VStr s => Some (Text s)
  | VInt z => Some (Number (exact_of_Z z))
  | VFloat f =>
      match exact_of_float f with
      | Some v => Some (Number v)
      | None => None
      end
  end.

Definition exact_lt (a b : exact) : Prop :=
  match a, b with
  | NegInf, NegInf => False
  | NegInf, _ => True
  | Units x, Units y => (x < y)%Z
  | Units _, PosInf => True
  | _, _ => False
  end.

(** Ascending order of two keys: numbers by value, text by code point
    (byte by byte, the first difference deciding, a proper prefix first),
    and a number before a text. *)
Definition ascending (a b : cell) : Prop :=
  match key_value a, key_value b with
  | Some (Number x), Some (Number y) => exact_lt x y
  | Some (Text x), Some (Text y) => String_as_OT.lt x y
  | Some (Number _), Some (Text _) => True
  | _, _ => False
  end.

Definition distinct_keys (l : list cell) : Prop :=
  ForallOrdPairs (fun a b => key_eqb a b = false) l.

(** Keys no two of which have the same value. *)
Definition distinct_values (l : list cell) : Prop :=
  ForallOrdPairs (fun a b => key_value a <> key_value b) l.

(** The key of the row [r] is the key [k]: both have the same value. *)
Definition has_key (k : cell) (r : InputRow) : Prop :=
  key_value (record_id r) = key_value k /\ key_value k <> None.

(** The rows that have a key: their [record_id] is not missing. *)
Definition keyed (df : DataFrame) : DataFrame :=
  filter (fun r => notna (record_id r)) df.

(** Strictly less than 10, for a height. *)
Definition below_10 (x : cell) : Prop :=
  match x with
  | VInt z => (z < 10)%Z
  | VFloat f => (f <? 10)%float = true
  | VStr _ => False
  end.

Section Statements.
Context {py : PyText}.

(** [start + bw1 + ... + bwn] for the bandwidths of [rows], from the left. *)
Definition total_from (start : float) (rows : DataFrame) : result float :=
  fold_left
    (fun acc row =>
       do a <- acc ;; do bw <- py_float (bandwidth row) ;; Ok (a + bw)%float)
    rows (Ok start).

Definition has_technology (tech : string) (row : InputRow) : bool :=
  py_str (technology row) =? tech.

(** The sum of [float(bandwidth)] over exactly the rows whose technology
    text is [tech], starting from 0. *)
Definition total_bandwidth (tech : string) (rows : DataFrame) : result float :=
  total_from 0 (filter (has_technology tech) rows).

(** [float] converts the bandwidth of every row that has a key. *)
Definition parseable (df : DataFrame) : Prop :=
  forall r, In r df -> notna (record_id r) = true ->
            exists bw, py_float (bandwidth r) = Ok bw.

(** The two accumulators of [a] are the sums over the LTE rows and over the
    5G rows of the group, and an accumulator no row adds to is still the
    integer 0 it started as. *)
Definition sums_by_technology (group_df : DataFrame) (a : Agg.t) : Prop :=
  exists t4 t5,
    total_bandwidth "LTE" group_df = Ok t4 /\
    total_bandwidth "5G" group_df = Ok t5 /\
    number (Agg._4G_BW a) = Some t4 /\
    number (Agg._5G_BW a) = Some t5 /\
    (filter (has_technology "LTE") group_df = [] -> Agg._4G_BW a = VInt 0) /\
    (filter (has_technology "5G") group_df = [] -> Agg._5G_BW a = VInt 0).

(** The five variable fields of [a] are the texts of the rows of the group,
    in the order of the rows, with ["~"] between them. *)
Definition joined_in_order (group_df : DataFrame) (a : Agg.t) : Prop :=
  Agg.licence_category a
    = join "~" (map (fun r => py_str (licence_category r)) group_df) /\
  Agg.tx_ant_azimuth a
    = join "~" (map (fun r => py_str (tx_ant_azimuth r)) group_df) /\
  Agg.technology a
    = join "~" (map (fun r => py_str (technology r)) group_df) /\
  Agg.bandwidth a
    = join "~" (map (fun r => py_str (bandwidth r)) group_df) /\
  Agg.tx_power a
    = join "~" (map (fun r => py_str (tx_power r)) group_df).

(** The same in the words of the specification: each of the five fields
    is the concatenation of the texts of the rows, in the order of the
    rows, delimited by ["~"].  [String.concat] is the delimited
    concatenation of the standard library. *)
Definition delimited_in_order (group_df : DataFrame) (a : Agg.t) : Prop :=
  Agg.licence_category a
    = String.concat "~" (map (fun r => py_str (licence_category r)) group_df) /\
  Agg.tx_ant_azimuth a
    = String.concat "~" (map (fun r => py_str (tx_ant_azimuth r)) group_df) /\
  Agg.technology a
    = String.concat "~" (map (fun r => py_str (technology r)) group_df) /\
  Agg.bandwidth a
    = String.concat "~" (map (fun r => py_str (bandwidth r)) group_df) /\
  Agg.tx_power a
    = String.concat "~" (map (fun r => py_str (tx_power r)) group_df).

(** For a group of two rows, the five variable fields of [a] are the text
    of the first row, a ["~"], and the text of the second row. *)
Definition pair_delimited (r1 r2 : InputRow) (a : Agg.t) : Prop :=
  Agg.licence_category a
    = (py_str (licence_category r1) ++ "~" ++ py_str (licence_category r2))%string /\
  Agg.tx_ant_azimuth a
    = (py_str (tx_ant_azimuth r1) ++ "~" ++ py_str (tx_ant_azimuth r2))%string /\
  Agg.technology a
    = (py_str (technology r1) ++ "~" ++ py_str (technology r2))%string /\
  Agg.bandwidth a
    = (py_str (bandwidth r1) ++ "~" ++ py_str (bandwidth r2))%string /\
  Agg.tx_power a
    = (py_str (tx_power r1) ++ "~" ++ py_str (tx_power r2))%string.

(** For a group of one row, the five variable fields of [a] are the texts
    of that row. *)
Definition single_unmodified (r : InputRow) (a : Agg.t) : Prop :=
  Agg.licence_category a = py_str (licence_category r) /\
  Agg.tx_ant_azimuth a = py_str (tx_ant_azimuth r) /\
  Agg.technology a = py_str (technology r) /\
  Agg.bandwidth a = py_str (bandwidth r) /\
  Agg.tx_power a = py_str (tx_power r).
End Statements.

(** The classification of one row of the final table: Micro with its
    marker, or Macro with its marker. *)
Definition micro_row (out : Out.t) : Prop :=
  Out.Type_ out = "Micro" /\ Out.Micro out = VInt 1 /\ Out.Macro out = VStr "-".

Definition macro_row (out : Out.t) : Prop :=
  Out.Type_ out = "Macro" /\ Out.Micro out = VStr "-" /\ Out.Macro out = VInt 1.

(* ================================================================== *)
(** * Sample frames *)

(** A sector record of a tower in Montreal. *)
Definition sector (rid height tech bw : cell) : InputRow :=
  {| Tier_4_id := VStr "4-077";
     record_id := rid;
     area_name := VStr "Montreal";
     latitude := VFloat 45.5;
     longitude := VFloat (-73.5);
     structure_height := height;
     tx_ant_azimuth := VInt 120;
     licence_category := VStr "PCS";
     technology := tech;
     tx_power := VInt 40;
     bandwidth := bw |}.

(** The example of the specification: three sectors of tower E5015. *)
Definition tower_E5015 : DataFrame :=
  [sector (VStr "E5015") (VInt 30) (VStr "LTE") (VInt 10);
   sector (VStr "E5015") (VInt 30) (VStr "LTE") (VInt 10);
   sector (VStr "E5015") (VInt 30) (VStr "5G") (VInt 100)].

(** Two towers, the one that sorts last read first. *)
Definition towers_M20_E5015 : DataFrame :=
  [sector (VStr "M20") (VInt 8) (VStr "LTE") (VInt 15);
   sector (VStr "E5015") (VInt 30) (VStr "5G") (VInt 100);
   sector (VStr "M20") (VInt 8) (VStr "UMTS") (VInt 5)].

(** A frame whose first row has no [record_id]; its bandwidth column is
    text, as [read_csv] makes it when one entry is not a number. *)
Definition missing_record_id : DataFrame :=
  [sector (VFloat nan) (VInt 12) (VStr "LTE") (VStr "10 MHz");
   sector (VStr "E5015") (VInt 30) (VStr "LTE") (VStr "10")].

(** One sector without a [record_id] among those of a tower. *)
Definition unkeyed_sector : DataFrame :=
  [sector (VStr "E5015") (VInt 30) (VStr "LTE") (VInt 10);
   sector (VFloat nan) (VInt 30) (VStr "5G") (VInt 100)].

(** Two towers of two sectors each, read in turn, and two sectors without
    a [record_id]. *)
Definition towers_and_unkeyed : DataFrame :=
  [sector (VStr "M20") (VInt 8) (VStr "LTE") (VInt 15);
   sector (VFloat nan) (VInt 12) (VStr "LTE") (VInt 20);
   sector (VStr "E5015") (VInt 30) (VStr "5G") (VInt 100);
   sector (VStr "M20") (VInt 8) (VStr "UMTS") (VInt 5);
   sector (VFloat nan) (VInt 12) (VStr "5G") (VInt 40);
   sector (VStr "E5015") (VInt 30) (VStr "LTE") (VInt 10)].

(** A column of [record_id]s that holds integers, floats and text: tower 7
    is once the integer 7 and once the float 7.0. *)
Definition mixed_record_ids : DataFrame :=
  [sector (VInt 7) (VInt 8) (VStr "LTE") (VInt 15);
   sector (VStr "E5015") (VInt 30) (VStr "5G") (VInt 100);
   sector (VFloat 2.5) (VInt 12) (VStr "LTE") (VInt 20);
   sector (VFloat 7) (VInt 8) (VStr "5G") (VInt 40)].

(** A sector record all of whose entries are numbers. *)
Definition numbered_sector (rid : Z) (height : float) : InputRow :=
  {| Tier_4_id := VInt 4;
     record_id := VInt rid;
     area_name := VInt 514;
     latitude := VInt 45;
     longitude := VInt (-73);
     structure_height := VFloat height;
     tx_ant_azimuth := VInt 120;
     licence_category := VInt 2;
     technology := VInt 5;
     tx_power := VInt 40;
     bandwidth := VInt 10 |}.

(** A frame of numbers only: every column is int64, but the heights, which
    are float64. *)
Definition numbered_towers : DataFrame :=
  [numbered_sector 3 9.5; numbered_sector 3 9.5; numbered_sector 1 30].

(** Towers of heights 9.999, 10 and unknown. *)
Definition three_heights : DataFrame :=
  [sector (VStr "A1") (VFloat 0x1.3ff7ced916873p+3) (VStr "LTE") (VInt 10);
   sector (VStr "B2") (VFloat 10) (VStr "5G") (VInt 100);
   sector (VStr "C3") (VFloat nan) (VStr "LTE") (VInt 20)].

(** A tower one of whose bandwidths is not a number. *)
Definition bad_bandwidth : DataFrame :=
  [sector (VStr "E5015") (VInt 30) (VStr "LTE") (VStr "10");
   sector (VStr "E5015") (VInt 30) (VStr "UMTS") (VStr "ten")].

(** The table made from [three_heights]. *)
Definition three_heights_rows : list Out.t :=
  Eval vm_compute in
    match report (py := CPython.text) three_heights "Videotron." "QC" with
    | Ok rows => rows
    | Raise _ => []
    end.

(* ================================================================== *)
(** * The script (lines 104-134) *)

(** The state of a run of the script: the content of the workbook file, and
    the exception that ended the run, if one did. *)
Definition Run : Type := (option Workbook * option exn)%type.

Section Script.
Context {py : PyText}.

(** One call of [process_company_data] in the script.  The script catches
    no exception: the first one ends the run, and the calls after it are
    not made.  The exceptions of the model are those of lines 30-81, raised
    before line 84, when the call has written nothing: a run that the
    writer ends, with the workbook already rewritten, is not among the runs
    described. *)
Definition call (df : DataFrame)
    (company_name licensee_name province sheet_name : string) (run : Run) : Run :=
  match run with
  | (file, Some e) => (file, Some e)
  | (file, None) =>
      match process_company_data df company_name licensee_name province
                                 sheet_name file with
      | Ok book => (Some book, None)
      | Raise e => (file, Some e)
      end
  end.

(** The three calls of lines 108-134, on the frames read from the three
    files, from the content [file] of [output_workbook] before the run. *)
Definition main (rogers telus videotron : DataFrame) (file : option Workbook)
  : Run :=
  let run1 :=
    call rogers "Rogers" "Rogers Communications Canada Inc." "QC" "Rogers"
         (file, None) in
  let run2 := call telus "TELUS" "TELUS" "QC" "TELUS" run1 in
  call videotron "Videotron" "Videotron." "QC" "Videotron" run2.
End Script.

(* ================================================================== *)
(** * Runs of lines 30-81 *)


Section Runs.
Context {py : PyText}.

End Runs.

(* ================================================================== *)
(** * More notions used in the statements *)

(** The names of the sheets of a workbook after a sheet [n] is written to
    it: as before, with [n] at the end if it was not among them. *)
Definition with_name (n : string) (names : list string) : list string :=
  if existsb (fun m => m =? n) names then names else names ++ [n].

(** [sub in s]: the text [sub] occurs somewhere in [s]. *)
Fixpoint occurs (sub s : string) : bool :=
  match s with
  | EmptyString => prefix sub s
  | String _ s' => prefix sub s || occurs sub s'
  end.

(** The kind of a value: integer, float or text.  The values of an int64
    column, of a float64 column and of a column of text are of one kind. *)
Definition dtype_rank (c : cell) : Z :=
  match c with
  | VInt _ => 0
  | VFloat _ => 1
  | VStr _ => 2
  end.

(** The value [c] as a column of the table holds it: itself, or the float of
    the same number when [c] is an integer in a column of floats. *)
Definition same_value (c c' : cell) : Prop :=
  c' = c \/ exists z, c = VInt z /\ c' = VFloat (float_of_Z z).

(** What an accumulator of bandwidths can be: the integer 0 it starts as,
    or a float. *)
Definition zero_or_float (c : cell) : Prop := c = VInt 0 \/ is_float c = true.

(** The sheets of the workbook file; none when the file does not exist. *)
Definition sheets (file : option Workbook) : Workbook :=
  match file with
  | Some book => book
  | None => []
  end.

(** The names of the three sheets the script writes. *)
Definition script_sheets : list string := ["Rogers"; "TELUS"; "Videotron"].

(** The tables made from [tower_E5015] and [towers_M20_E5015], as the script
    would make them for Rogers and for TELUS. *)
Definition rogers_rows : list Out.t :=
  Eval vm_compute in
    match report (py := CPython.text) tower_E5015
                 "Rogers Communications Canada Inc." "QC" with
    | Ok rows => rows
    | Raise _ => []
    end.

(** The table made from [numbered_towers]. *)
Definition numbered_rows : list Out.t :=
  Eval vm_compute in
    match report (py := CPython.text) numbered_towers "TELUS" "QC" with
    | Ok rows => rows
    | Raise _ => []
    end.

Definition telus_rows : list Out.t :=
  Eval vm_compute in
    match report (py := CPython.text) towers_M20_E5015 "TELUS" "QC" with
    | Ok rows => rows
    | Raise _ => []
    end.

(** A workbook that holds a sheet of another name and an old TELUS sheet. *)
Definition old_book : Workbook :=
  [("Notes", {| header := ["Remark"]; body := [[VStr "draft"]] |});
   ("TELUS", {| header := final_columns; body := [] |})].

(** A tower whose height is given as text. *)
Definition text_height_tower : DataFrame :=
  [sector (VStr "E5015") (VStr "30 m") (VStr "LTE") (VInt 10);
   sector (VStr "E5015") (VStr "30 m") (VStr "5G") (VInt 100)].

(** The workbook after a run of the script on [old_book]. *)
Definition script_book : Workbook :=
  Eval vm_compute in
    match main (py := CPython.text) tower_E5015 towers_M20_E5015 three_heights
               (Some old_book) with
    | (Some book, _) => book
    | (None, _) => []
    end.

(* ================================================================== *)
(** * Lemmas *)

(** ** The definitions on known values *)

Example replace_LTE : replace "LTE" "4G" "LTE~5G" = "4G~5G".
Proof. reflexivity. Qed.

Example replace_delimiter : replace "~" "|" "PCS~AWS~PCS" = "PCS|AWS|PCS".
Proof. reflexivity. Qed.

Example replace_no_overlap : replace "aa" "b" "aaa" = "ba".
Proof. reflexivity. Qed.

Example join_three : join "~" ["LTE"; "LTE"; "5G"] = "LTE~LTE~5G".
Proof. reflexivity. Qed.

Example float_of_text :
  map CPython.parse_float ["10"; " 1_000.5 "; "1e-3"; "-inf"; "10 MHz"; "1e"; ""]
  = [Some 10%float; Some 1000.5%float; Some 0x1.0624dd2f1a9fcp-10%float;
     Some neg_infinity; None; None; None].
Proof. vm_compute. reflexivity. Qed.

Example text_of_float :
  map CPython.repr_float
      [20%float; 0.5%float; 0x1.999999999999ap-4%float; 0x1.3ff7ced916873p+3%float;
       1e16%float; 0x1.4f8b588e368f1p-17%float; nan; neg_infinity]
  = ["20.0"; "0.5"; "0.1"; "9.999"; "1e+16"; "1e-05"; "nan"; "-inf"].
Proof. vm_compute. reflexivity. Qed.

Example float_of_integer :
  map float_of_Z [0; 10; -3; 9007199254740993]%Z
  = [0%float; 10%float; (-3)%float; 9007199254740992%float].
Proof. vm_compute. reflexivity. Qed.

Example text_of_integer : map str_of_Z [0; 120; -15]%Z = ["0"; "120"; "-15"].
Proof. reflexivity. Qed.

(** Keys are compared by value: 2.5 comes before 7, the integer 7 and the
    float 7.0 are one key, and numbers come before text. *)
Example keys_by_value :
  map (fun p => (key_ltb (fst p) (snd p), key_eqb (fst p) (snd p)))
      [(VInt 7, VFloat 2.5); (VFloat 2.5, VInt 7); (VInt 7, VFloat 7);
       (VFloat 7, VInt 7); (VInt 7, VInt 10); (VFloat 7.5, VFloat 10);
       (VInt 7, VStr "7"); (VStr "E5015", VInt 7); (VStr "E5015", VStr "M20");
       (VInt 3, VFloat infinity); (VFloat neg_infinity, VInt (-3));
       (VInt 3, VFloat nan); (VFloat nan, VFloat nan)]
  = [(false, false); (true, false); (false, true);
     (false, true); (true, false); (true, false);
     (true, false); (false, false); (true, false);
     (true, false); (true, false);
     (false, false); (false, false)].
Proof. vm_compute. reflexivity. Qed.

(** The groups of a column of mixed dtypes: tower 7 has the two rows that
    hold it as 7 and as 7.0, and its key is the one read first. *)
Example mixed_groups :
  map (fun g => (fst g, map bandwidth (snd g))) (groupby mixed_record_ids)
  = [(VFloat 2.5, [VInt 20]); (VInt 7, [VInt 15; VInt 40]);
     (VStr "E5015", [VInt 100])].
Proof. vm_compute. reflexivity. Qed.

(** In a frame of numbers only, with a column of floats, [iloc[0]] gives
    the integers of the first row as floats, while the joined texts are
    those of the integers of the columns. *)
Example float_row_table :
  float_rows numbered_towers = true /\
  float_rows tower_E5015 = false /\
  map (fun out => (Out.Code out, Out.Tower_ID out, Out.LATITUDE out,
                   Out.Height_m out, Out.Type_ out, Out.TX_ANT_AZI out))
      numbered_rows
  = [(VFloat 4, VFloat 1, VFloat 45, VFloat 30, "Macro", "120");
     (VFloat 4, VFloat 3, VFloat 45, VFloat 9.5, "Micro", "120~120")].
Proof. vm_compute. repeat split. Qed.

(** A row of technology UMTS adds to neither sum, and its token stays in
    the [TECHNOLOGY] text. *)
Example umts_row :
  map (fun out => (Out.TECHNOLOGY out, Out._4G_BW out, Out._5G_BW out))
      (match report (py := CPython.text) towers_M20_E5015 "TELUS" "QC" with
       | Ok rows => rows
       | Raise _ => []
       end)
  = [("5G", VFloat 0, VFloat 100); ("4G~UMTS", VFloat 15, VFloat 0)].
Proof. vm_compute. reflexivity. Qed.

(** A frame with no row, or with no row that has a key, has no group:
    line 71 then finds no column to read. *)
Example no_group :
  report (py := CPython.text) [] "TELUS" "QC" = Raise KeyError /\
  report (py := CPython.text)
         [sector (VFloat nan) (VInt 30) (VStr "LTE") (VInt 10)] "TELUS" "QC"
  = Raise KeyError.
Proof. split; reflexivity. Qed.

(** A height that is text cannot be compared with 10. *)
Example text_height :
  report (py := CPython.text)
         [sector (VStr "E5015") (VStr "30 m") (VStr "LTE") (VInt 10)] "TELUS" "QC"
  = Raise TypeError.
Proof. reflexivity. Qed.

(** ** Exact values and the order of floats *)

Lemma digits2_size p : digits2_pos p = Pos.size p.
Proof. induction p; simpl; congruence. Qed.

(** A finite binary64 number [m * 2^e] has [e >= -1074] and [m < 2^53],
    and [m >= 2^52] unless [e = -1074]. *)
Lemma bounded_range m e :
  bounded prec emax m e = true ->
  (-1074 <= e /\ Z.pos m < 2 ^ 53 /\ (-1074 < e -> 2 ^ 52 <= Z.pos m))%Z.
Proof.
  unfold bounded, canonical_mantissa, fexp, SpecFloat.emin.
  rewrite digits2_size. change prec with 53%Z. change emax with 1024%Z.
  intro H. apply andb_true_iff in H. destruct H as [H _].
  apply Z.eqb_eq in H.
  pose proof (Pos.size_gt m) as G. pose proof (Pos.size_le m) as L.
  apply Pos2Z.pos_lt_pos in G. apply Pos2Z.pos_le_pos in L.
  rewrite Pos2Z.inj_pow in G, L. rewrite Pos2Z.inj_xO in L.
  set (d := Z.pos (Pos.size m)) in *.
  assert (0 < d)%Z by (unfold d; lia).
  split; [lia|]. split.
  - assert (d <= 53)%Z by lia.
    assert (2 ^ d <= 2 ^ 53)%Z by (apply Z.pow_le_mono_r; lia). lia.
  - intro E. assert (D : d = 53%Z) by lia. rewrite D in L.
    change (2 ^ 53)%Z with (2 * 2 ^ 52)%Z in L. lia.
Qed.

(** Of two positive binary64 numbers, the one of smaller exponent is the
    smaller number. *)
Lemma units_order m1 e1 m2 e2 :
  bounded prec emax m1 e1 = true -> bounded prec emax m2 e2 = true ->
  (e1 < e2 -> Z.pos m1 * 2 ^ (e1 + 1074) < Z.pos m2 * 2 ^ (e2 + 1074))%Z.
Proof.
  intros B1 B2 E. apply bounded_range in B1, B2.
  destruct B1 as (A1 & U1 & _). destruct B2 as (A2 & _ & L2).
  assert (L : (-1074 < e2)%Z) by lia. specialize (L2 L).
  assert (P1 : (0 <= e1 + 1074)%Z) by lia. assert (P2 : (0 <= e2 - e1)%Z) by lia.
  replace (e2 + 1074)%Z with ((e1 + 1074) + (e2 - e1))%Z by lia.
  rewrite (Z.pow_add_r 2 _ _ P1 P2).
  assert (HX : (0 < 2 ^ (e1 + 1074))%Z) by (apply Z.pow_pos_nonneg; lia).
  assert (HY : (2 ^ 1 <= 2 ^ (e2 - e1))%Z) by (apply Z.pow_le_mono_r; lia).
  change (2 ^ 1)%Z with 2%Z in HY. change (2 ^ 53)%Z with (2 * 2 ^ 52)%Z in U1.
  remember (2 ^ 52)%Z as P eqn:EP. remember (2 ^ (e1 + 1074))%Z as X eqn:EX.
  remember (2 ^ (e2 - e1))%Z as Y eqn:EY. clear EP EX EY.
  apply Z.lt_le_trans with (2 * P * X)%Z.
  - apply Z.mul_lt_mono_pos_r; assumption.
  - apply Z.le_trans with (Z.pos m2 * (X * 2))%Z.
    + rewrite (Z.mul_comm X 2), Z.mul_assoc, (Z.mul_comm _ 2).
      apply Z.mul_le_mono_nonneg_r; lia.
    + apply Z.mul_le_mono_nonneg_l; [lia|].
      apply Z.mul_le_mono_nonneg_l; lia.
Qed.

Lemma pow_units_pos e : (-1074 <= e -> 0 < 2 ^ (e + 1074))%Z.
Proof. intro. apply Z.pow_pos_nonneg; lia. Qed.

Lemma neg_units m X : (0 < X -> Z.neg m * X < 0)%Z.
Proof. intro. apply Z.mul_neg_pos; lia. Qed.

Lemma pos_units m X : (0 < X -> 0 < Z.pos m * X)%Z.
Proof. intro. apply Z.mul_pos_pos; lia. Qed.

Lemma neg_units_opp m X : (Z.neg m * X = - (Z.pos m * X))%Z.
Proof. rewrite <- Pos2Z.opp_pos. apply Z.mul_opp_l. Qed.

Ltac decide_order :=
  split; symmetry;
  first [apply Z.ltb_lt | apply Z.ltb_ge | apply Z.eqb_eq | apply Z.eqb_neq];
  try reflexivity; try lia.

(** The comparisons of IEEE 754 are the comparisons of the exact values. *)
Lemma SFcompare_exact x y :
  valid_binary x = true -> valid_binary y = true ->
  SFltb x y = match exact_of_SF x, exact_of_SF y with
              | Some a, Some b => exact_ltb a b
              | _, _ => false
              end /\
  SFeqb x y = match exact_of_SF x, exact_of_SF y with
              | Some a, Some b => exact_eqb a b
              | _, _ => false
              end.
Proof.
  unfold SFltb, SFeqb.
  destruct x as [sx|sx| |sx mx ex], y as [sy|sy| |sy my ey];
    cbn [exact_of_SF exact_ltb exact_eqb SFcompare valid_binary];
    intros Vx Vy;
    try (destruct sx); try (destruct sy);
    cbn [exact_of_SF exact_ltb exact_eqb SFcompare]; auto;
    try (pose proof (neg_units mx _ (pow_units_pos _ (proj1 (bounded_range _ _ Vx)))));
    try (pose proof (pos_units mx _ (pow_units_pos _ (proj1 (bounded_range _ _ Vx)))));
    try (pose proof (neg_units my _ (pow_units_pos _ (proj1 (bounded_range _ _ Vy)))));
    try (pose proof (pos_units my _ (pow_units_pos _ (proj1 (bounded_range _ _ Vy)))));
    try (decide_order; fail).
  all: change (Pos.compare_cont Eq) with Pos.compare.
  all: rewrite ?neg_units_opp.
  all: destruct (Z.compare_spec ex ey) as [E|E|E];
    [ subst ey; destruct (Pos.compare_spec mx my) as [M|M|M]; cbn [CompOpp];
      [ subst; decide_order
      | assert (Z.pos mx * 2 ^ (ex + 1074) < Z.pos my * 2 ^ (ex + 1074))%Z
          by (apply Z.mul_lt_mono_pos_r;
              [apply pow_units_pos, (bounded_range _ _ Vx) | lia]);
        decide_order
      | assert (Z.pos my * 2 ^ (ex + 1074) < Z.pos mx * 2 ^ (ex + 1074))%Z
          by (apply Z.mul_lt_mono_pos_r;
              [apply pow_units_pos, (bounded_range _ _ Vx) | lia]);
        decide_order ]
    | pose proof (units_order _ _ _ _ Vx Vy E); decide_order
    | pose proof (units_order _ _ _ _ Vy Vx E); decide_order ].
Qed.

Lemma float_ltb_exact x y :
  (x <? y)%float = match exact_of_float x, exact_of_float y with
                   | Some a, Some b => exact_ltb a b
                   | _, _ => false
                   end.
Proof.
  rewrite ltb_spec. apply SFcompare_exact; apply Prim2SF_valid.
Qed.

Lemma float_eqb_exact x y :
  (x =? y)%float = match exact_of_float x, exact_of_float y with
                   | Some a, Some b => exact_eqb a b
                   | _, _ => false
                   end.
Proof.
  rewrite eqb_spec. apply SFcompare_exact; apply Prim2SF_valid.
Qed.

Lemma exact_of_float_nan f : exact_of_float f = None <-> is_nan f = true.
Proof.
  unfold is_nan. rewrite float_eqb_exact.
  destruct (exact_of_float f) as [[|z|]|]; cbn [exact_eqb];
    rewrite ?Z.eqb_refl; simpl; split; congruence.
Qed.

Lemma exact_ltb_lt a b : exact_ltb a b = true <-> exact_lt a b.
Proof.
  destruct a, b; simpl; rewrite ?Z.ltb_lt; split; auto; try discriminate; tauto.
Qed.

Lemma exact_eqb_eq a b : exact_eqb a b = true <-> a = b.
Proof.
  destruct a, b; simpl; rewrite ?Z.eqb_eq; split; congruence.
Qed.

Lemma exact_lt_trans a b c : exact_lt a b -> exact_lt b c -> exact_lt a c.
Proof. destruct a, b, c; simpl; auto; try tauto; lia. Qed.

Lemma exact_lt_irrefl a : ~ exact_lt a a.
Proof. destruct a; simpl; auto; lia. Qed.

Lemma exact_total a b : exact_lt a b \/ a = b \/ exact_lt b a.
Proof.
  destruct a as [|x|], b as [|y|]; simpl; auto.
  destruct (Z.lt_total x y) as [H|[H|H]]; auto. subst; auto.
Qed.

Lemma exact_of_Z_inj x y : exact_of_Z x = exact_of_Z y <-> x = y.
Proof.
  unfold exact_of_Z. split; [|congruence]. intro H.
  assert (E : (x * 2 ^ 1074 = y * 2 ^ 1074)%Z) by congruence.
  apply Z.mul_reg_r in E; auto. apply Z.pow_nonzero; lia.
Qed.

Lemma exact_of_Z_lt x y : exact_lt (exact_of_Z x) (exact_of_Z y) <-> (x < y)%Z.
Proof.
  unfold exact_of_Z; cbn [exact_lt]. symmetry. apply Z.mul_lt_mono_pos_r.
  apply Z.pow_pos_nonneg; lia.
Qed.

(** ** The order of keys *)

Lemma string_ltb_lt x y : String.ltb x y = true <-> String_as_OT.lt x y.
Proof.
  rewrite <- String_as_OT.cmp_lt. unfold String.ltb, String_as_OT.cmp.
  destruct (String.compare x y); split; congruence.
Qed.

Lemma key_value_notna a : notna a = true <-> key_value a <> None.
Proof.
  destruct a as [s|z|f]; simpl; try (split; [discriminate | reflexivity]).
  unfold notna; simpl. rewrite negb_true_iff.
  pose proof (exact_of_float_nan f) as N.
  destruct (exact_of_float f); destruct (is_nan f); split; try congruence.
  - intros _. destruct N as [_ N]. now specialize (N eq_refl).
  - intros _. destruct N as [N _]. now specialize (N eq_refl).
Qed.

(** Two keys are equal when they have the same value. *)
Lemma key_eqb_value a b :
  key_eqb a b = true <-> key_value a = key_value b /\ key_value a <> None.
Proof.
  destruct a as [x|x|x], b as [y|y|y]; simpl;
    unfold Z_eqb_float; rewrite ?float_eqb_exact.
  - rewrite String.eqb_eq. split; [intros ->; split; [auto|discriminate]|].
    intros [H _]. congruence.
  - split; [discriminate | intros [H _]; discriminate].
  - split; [discriminate|]. intros [H _].
    destruct (exact_of_float y); discriminate.
  - split; [discriminate | intros [H _]; discriminate].
  - rewrite Z.eqb_eq. split; [intros ->; split; [auto|discriminate]|].
    intros [H _]. apply exact_of_Z_inj. congruence.
  - destruct (exact_of_float y) as [v|].
    + rewrite exact_eqb_eq. split; [intros ->; split; [auto|discriminate]|].
      intros [H _]. congruence.
    + split; [discriminate | intros [H _]; discriminate].
  - split; [discriminate|]. intros [H _].
    destruct (exact_of_float x); discriminate.
  - destruct (exact_of_float x) as [v|].
    + rewrite exact_eqb_eq. split; [intros <-; split; [auto|discriminate]|].
      intros [H _]. congruence.
    + split; [discriminate | intros [_ H]; congruence].
  - destruct (exact_of_float x) as [v|], (exact_of_float y) as [w|];
      try (split; [discriminate | intros [H H']; congruence]).
    rewrite exact_eqb_eq. split; [intros ->; split; [auto|discriminate]|].
    intros [H _]. congruence.
Qed.

(** The order of keys is the ascending order of their values. *)
Lemma key_ltb_ascending a b :
  notna a = true -> (key_ltb a b = true <-> ascending a b).
Proof.
  intro Ha. apply key_value_notna in Ha. revert Ha. unfold ascending.
  destruct a as [x|x|x], b as [y|y|y]; simpl;
    unfold Z_ltb_float, float_ltb_Z; rewrite ?float_ltb_exact; intros Ha.
  - apply string_ltb_lt.
  - split; [discriminate | tauto].
  - destruct (exact_of_float y); split; try discriminate; tauto.
  - tauto.
  - rewrite Z.ltb_lt. symmetry. apply exact_of_Z_lt.
  - destruct (exact_of_float y); [apply exact_ltb_lt|].
    split; [discriminate | tauto].
  - destruct (exact_of_float x); [tauto | congruence].
  - destruct (exact_of_float x); [apply exact_ltb_lt | congruence].
  - destruct (exact_of_float x); [|congruence].
    destruct (exact_of_float y); [apply exact_ltb_lt|].
    split; [discriminate | tauto].
Qed.

Lemma ascending_notna a b : ascending a b -> notna a = true /\ notna b = true.
Proof.
  unfold ascending. rewrite !key_value_notna.
  destruct (key_value a) as [[x|x]|], (key_value b) as [[y|y]|];
    try tauto; intros _; split; discriminate.
Qed.

Lemma ascending_trans a b c : ascending a b -> ascending b c -> ascending a c.
Proof.
  unfold ascending.
  destruct (key_value a) as [[x|x]|], (key_value b) as [[y|y]|],
    (key_value c) as [[z|z]|]; try tauto.
  - apply exact_lt_trans.
  - apply String_as_OT.lt_trans.
Qed.

Lemma ascending_total a b :
  notna a = true -> notna b = true ->
  ascending a b \/ key_value a = key_value b \/ ascending b a.
Proof.
  rewrite !key_value_notna. unfold ascending.
  destruct (key_value a) as [[x|x]|], (key_value b) as [[y|y]|];
    try tauto; intros _ _.
  - destruct (exact_total x y) as [H|[H|H]]; auto. subst; auto.
  - destruct (String_as_OT.compare x y) as [H|H|H]; auto.
    right; left. now rewrite H.
Qed.

Lemma ascending_not_equal a b : ascending a b -> key_value a <> key_value b.
Proof.
  unfold ascending.
  destruct (key_value a) as [[x|x]|], (key_value b) as [[y|y]|];
    try tauto; intros H E; try discriminate; injection E as E; subst.
  - exact (exact_lt_irrefl _ H).
  - exact (String_as_OT.lt_not_eq _ _ H eq_refl).
Qed.

Lemma key_eqb_notna a b : key_eqb a b = true -> notna a = true /\ notna b = true.
Proof.
  rewrite key_eqb_value, !key_value_notna. intros [E H]. split; congruence.
Qed.

Lemma key_eqb_refl a : notna a = true -> key_eqb a a = true.
Proof. rewrite key_value_notna, key_eqb_value. auto. Qed.

Lemma key_eqb_sym a b : key_eqb a b = key_eqb b a.
Proof.
  apply eq_true_iff_eq. rewrite !key_eqb_value.
  split; intros [E H]; split; congruence.
Qed.

Lemma key_eqb_trans a b c :
  key_eqb a b = true -> key_eqb b c = true -> key_eqb a c = true.
Proof. rewrite !key_eqb_value. intros [E H] [E' H']. split; congruence. Qed.

Lemma key_ltb_text a b :
  notna a = false -> key_ltb a b = true -> exists s, b = VStr s.
Proof.
  destruct a as [x|x|x]; try discriminate. intro Ha.
  assert (N : exact_of_float x = None).
  { apply exact_of_float_nan. unfold notna in Ha. simpl in Ha.
    now apply negb_false_iff in Ha. }
  destruct b as [y|y|y]; simpl; unfold float_ltb_Z;
    rewrite ?float_ltb_exact, ?N; try discriminate. eauto.
Qed.

Lemma key_ltb_trans a b c :
  key_ltb a b = true -> key_ltb b c = true -> key_ltb a c = true.
Proof.
  intros H1 H2. destruct (notna a) eqn:Ha.
  - apply (key_ltb_ascending _ _ Ha). apply (key_ltb_ascending _ _ Ha) in H1.
    destruct (ascending_notna _ _ H1) as [_ Hb].
    apply (key_ltb_ascending _ _ Hb) in H2.
    eapply ascending_trans; eauto.
  - destruct (key_ltb_text _ _ Ha H1) as [s ->].
    destruct c as [z|z|z]; try discriminate.
    destruct a; try discriminate. reflexivity.
Qed.

Lemma key_ltb_not_eqb a b : key_ltb a b = true -> key_eqb a b = false.
Proof.
  intro H. destruct (key_eqb a b) eqn:E; auto.
  pose proof (key_eqb_notna _ _ E) as [Ha _].
  apply (key_ltb_ascending _ _ Ha) in H. apply ascending_not_equal in H.
  apply key_eqb_value in E. tauto.
Qed.

Lemma ascending_value_l a a' b :
  key_value a = key_value a' -> ascending a b <-> ascending a' b.
Proof. unfold ascending. now intros ->. Qed.

Lemma ascending_value_r a b b' :
  key_value b = key_value b' -> ascending a b <-> ascending a b'.
Proof. unfold ascending. now intros ->. Qed.

Lemma key_total a b :
  notna a = true -> notna b = true ->
  key_ltb a b = true \/ key_eqb a b = true \/ key_ltb b a = true.
Proof.
  intros Ha Hb.
  rewrite (key_ltb_ascending _ _ Ha), (key_ltb_ascending _ _ Hb), key_eqb_value.
  destruct (ascending_total a b Ha Hb) as [H|[H|H]]; auto.
  right; left. split; auto. now apply key_value_notna.
Qed.

(** ** Lists and the error monad *)

Lemma mapM_Forall2 {A B : Type} (f : A -> result B) l l' :
  mapM f l = Ok l' <-> Forall2 (fun a b => f a = Ok b) l l'.
Proof.
  revert l'. induction l as [|a l IH]; intros l'; simpl.
  - split; intro H.
    + injection H as <-. constructor.
    + inversion H. reflexivity.
  - destruct (f a) as [b|e] eqn:Fa; simpl.
    + destruct (mapM f l) as [bs|e] eqn:M; simpl.
      * split; intro H.
        -- injection H as <-. constructor; [assumption | now apply IH].
        -- inversion H as [|? b' ? bs' Hb Hbs]; subst.
           apply IH in Hbs. congruence.
      * split; intro H; [discriminate|].
        inversion H as [|? b' ? bs' Hb Hbs]; subst.
        apply IH in Hbs. discriminate.
    + split; intro H; [discriminate|].
      inversion H; subst. congruence.
Qed.

Lemma mapM_total {A B : Type} (f : A -> result B) l :
  (forall a, In a l -> exists b, f a = Ok b) -> exists l', mapM f l = Ok l'.
Proof.
  induction l as [|a l IH]; intro H; simpl.
  - now exists [].
  - destruct (H a) as [b Hb]; [now left|]. rewrite Hb; simpl.
    destruct IH as [bs Hbs]; [intros; apply H; now right|].
    rewrite Hbs; simpl. now exists (b :: bs).
Qed.

Lemma mapM_raise {A B : Type} (f : A -> result B) l e :
  (forall a, In a l -> (exists b, f a = Ok b) \/ f a = Raise e) ->
  (exists a, In a l /\ f a = Raise e) ->
  mapM f l = Raise e.
Proof.
  induction l as [|a l IH]; intros Hall [x [Hin Hx]]; [destruct Hin|].
  simpl. destruct (Hall a) as [[b Hb]|Hb]; [now left| |]; rewrite Hb; simpl; auto.
  destruct Hin as [->|Hin]; [congruence|].
  rewrite IH; auto.
  - intros; apply Hall; now right.
  - now exists x.
Qed.

Lemma filter_implied {A : Type} (p q : A -> bool) l :
  (forall a, In a l -> p a = true -> q a = true) ->
  filter p (filter q l) = filter p l.
Proof.
  induction l as [|a l IH]; intro H; simpl; auto.
  destruct (q a) eqn:Q; simpl.
  - destruct (p a); rewrite IH; auto; intros; apply H; auto; now right.
  - destruct (p a) eqn:P.
    + rewrite H in Q; [discriminate|now left|assumption].
    + apply IH. intros; apply H; auto; now right.
Qed.

Lemma filter_split {A : Type} (p : A -> bool) l :
  Permutation (filter p l ++ filter (fun a => negb (p a)) l) l.
Proof.
  induction l as [|a l IH]; simpl; auto.
  destruct (p a); simpl.
  - now constructor.
  - apply Permutation_sym, Permutation_cons_app, Permutation_sym, IH.
Qed.

(** ** Keys of the groups *)

Lemma unique_incl keys k : In k (unique keys) -> In k keys.
Proof.
  revert k. induction keys as [|a l IH]; simpl; auto.
  intros k [->|H]; auto. apply filter_In in H. right. apply IH, H.
Qed.

Lemma unique_covers keys a :
  In a keys -> notna a = true ->
  exists k, In k (unique keys) /\ key_eqb a k = true.
Proof.
  induction keys as [|b l IH]; simpl; [tauto|].
  intros [->|H] Ha.
  - exists a. split; [now left | now apply key_eqb_refl].
  - destruct (IH H Ha) as [k [Hk E]].
    destruct (key_eqb k b) eqn:Kb.
    + exists b. split; [now left | eapply key_eqb_trans; eauto].
    + exists k. split; auto. right. apply filter_In. now rewrite Kb.
Qed.

Lemma unique_distinct keys : distinct_keys (unique keys).
Proof.
  induction keys as [|a l IH]; simpl; [constructor|].
  constructor.
  - apply Forall_forall. intros k H. apply filter_In in H.
    destruct H as [_ H]. rewrite key_eqb_sym. now apply negb_true_iff.
  - clear -IH. induction IH as [|k l0 Hk Hl IHl]; simpl; [constructor|].
    destruct (negb (key_eqb k a)); auto.
    constructor; auto.
    apply Forall_forall. intros x Hx. apply filter_In in Hx.
    rewrite Forall_forall in Hk. apply Hk, Hx.
Qed.

Lemma insert_key_perm k l : Permutation (insert_key k l) (k :: l).
Proof.
  induction l as [|x l IH]; simpl; auto.
  destruct (key_ltb x k); auto.
  rewrite IH. constructor.
Qed.

Lemma sort_keys_perm l : Permutation (sort_keys l) l.
Proof.
  induction l as [|k l IH]; simpl; auto.
  rewrite insert_key_perm. now constructor.
Qed.

Lemma insert_key_sorted k l :
  StronglySorted key_lt l ->
  notna k = true -> Forall (fun x => notna x = true) l ->
  Forall (fun x => key_eqb k x = false) l ->
  StronglySorted key_lt (insert_key k l).
Proof.
  induction 1 as [|x l Hs IH Hx]; intros Hk Hn Hd; simpl.
  - repeat constructor.
  - inversion Hn as [|? ? Hnx Hnl]; subst. inversion Hd as [|? ? Hdx Hdl]; subst.
    destruct (key_ltb x k) eqn:L.
    + constructor; auto.
      eapply Permutation_Forall; [apply Permutation_sym, insert_key_perm|].
      constructor; auto.
    + assert (Hkx : key_lt k x).
      { destruct (key_total k x Hk Hnx) as [H|[H|H]]; auto; congruence. }
      constructor; [constructor; auto|].
      constructor; auto.
      eapply Forall_impl; [|exact Hx].
      intros y Hy. eapply key_ltb_trans; eauto.
Qed.

Lemma sort_keys_sorted l :
  Forall (fun x => notna x = true) l -> distinct_keys l ->
  StronglySorted key_lt (sort_keys l).
Proof.
  induction l as [|k l IH]; intros Hn Hd; simpl; [constructor|].
  inversion Hn; subst. inversion Hd; subst.
  apply insert_key_sorted; auto.
  - eapply Permutation_Forall; [apply Permutation_sym, sort_keys_perm|]. auto.
  - eapply Permutation_Forall; [apply Permutation_sym, sort_keys_perm|]. auto.
Qed.

Lemma sorted_distinct l : StronglySorted key_lt l -> distinct_keys l.
Proof.
  induction 1 as [|x l Hs IH Hx]; constructor; auto.
  eapply Forall_impl; [|exact Hx]. intros y. apply key_ltb_not_eqb.
Qed.

Lemma group_keys_sorted df : StronglySorted key_lt (group_keys df).
Proof.
  unfold group_keys. apply sort_keys_sorted.
  - apply Forall_forall. intros k H. apply unique_incl, filter_In in H. tauto.
  - apply unique_distinct.
Qed.

Lemma group_keys_In df k :
  In k (group_keys df) ->
  notna k = true /\ exists r, In r df /\ record_id r = k.
Proof.
  unfold group_keys. intro H.
  apply (Permutation_in _ (sort_keys_perm _)) in H.
  apply unique_incl, filter_In in H. destruct H as [H Hk]. split; auto.
  apply in_map_iff in H. destruct H as [r [E Hr]]. now exists r.
Qed.

Lemma group_keys_cover df r :
  In r df -> notna (record_id r) = true ->
  exists k, In k (group_keys df) /\ key_eqb (record_id r) k = true.
Proof.
  intros Hr Hn.
  destruct (unique_covers (filter notna (map record_id df)) (record_id r)) as [k [Hk E]]; auto.
  - apply filter_In. split; auto. now apply in_map.
  - exists k. split; auto. unfold group_keys.
    eapply Permutation_in; [apply Permutation_sym, sort_keys_perm|]. exact Hk.
Qed.

Lemma group_rows_nonempty df k : In k (group_keys df) -> group_rows df k <> [].
Proof.
  intro H. apply group_keys_In in H. destruct H as [Hn [r [Hr E]]].
  assert (In r (group_rows df k)).
  { apply filter_In. split; auto. rewrite E. now apply key_eqb_refl. }
  intro Z. rewrite Z in H. destruct H.
Qed.

(** The groups of distinct keys split the rows that have one of the keys. *)
Lemma groups_partition keys (l : DataFrame) :
  distinct_keys keys ->
  (forall r, In r l -> exists k, In k keys /\ key_eqb (record_id r) k = true) ->
  Permutation (List.concat (map (group_rows l) keys)) l.
Proof.
  revert l. induction keys as [|k keys IH]; intros l Hd Hc; simpl.
  - destruct l as [|r l]; auto. destruct (Hc r) as [k [[] _]]. now left.
  - inversion Hd as [|? ? Hk Hd']; subst.
    set (l' := filter (fun r => negb (key_eqb (record_id r) k)) l).
    assert (E : map (group_rows l) keys = map (group_rows l') keys).
    { apply map_ext_in. intros k' Hk'. unfold group_rows, l'. symmetry.
      apply filter_implied. intros r _ Hr. apply negb_true_iff.
      destruct (key_eqb (record_id r) k) eqn:Rk; auto.
      rewrite Forall_forall in Hk. specialize (Hk k' Hk').
      rewrite key_eqb_sym in Rk.
      rewrite (key_eqb_trans _ _ _ Rk Hr) in Hk. discriminate. }
    rewrite E, IH; auto.
    + apply filter_split.
    + intros r Hr. apply filter_In in Hr. destruct Hr as [Hr Hn].
      destruct (Hc r Hr) as [k' [[<-|Hk'] Ek']]; [|now exists k'].
      rewrite Ek' in Hn. discriminate.
Qed.

Lemma group_rows_kept df k :
  group_rows (filter (fun r => notna (record_id r)) df) k = group_rows df k.
Proof.
  unfold group_rows. apply filter_implied.
  intros r _ H. now apply key_eqb_notna in H.
Qed.

Lemma groupby_partition df :
  Permutation (List.concat (map snd (groupby df)))
              (filter (fun r => notna (record_id r)) df).
Proof.
  unfold groupby. rewrite map_map; simpl.
  rewrite <- (map_ext _ _ (group_rows_kept df)).
  apply groups_partition.
  - apply sorted_distinct, group_keys_sorted.
  - intros r Hr. apply filter_In in Hr. destruct Hr. now apply group_keys_cover.
Qed.

(** ** The aggregation of one group *)

Section AggregationFacts.
Context {py : PyText}.

Lemma total_from_cons start row rows bw :
  py_float (bandwidth row) = Ok bw ->
  total_from start (row :: rows) = total_from (start + bw) rows.
Proof. unfold total_from; simpl. now intros ->. Qed.

Lemma sum_bandwidth_cons row rest bw4 bw5 :
  sum_bandwidth (row :: rest) bw4 bw5 =
  bind (py_float (bandwidth row)) (fun bw =>
    if has_technology "LTE" row then
      bind (iadd bw4 bw) (fun bw4' => sum_bandwidth rest bw4' bw5)
    else if has_technology "5G" row then
      bind (iadd bw5 bw) (fun bw5' => sum_bandwidth rest bw4 bw5')
    else sum_bandwidth rest bw4 bw5).
Proof. reflexivity. Qed.

Lemma filter_technology_cons tech row rows :
  filter (has_technology tech) (row :: rows) =
  if has_technology tech row then row :: filter (has_technology tech) rows
  else filter (has_technology tech) rows.
Proof. reflexivity. Qed.

Lemma LTE_not_5G row :
  has_technology "LTE" row = true -> has_technology "5G" row = false.
Proof.
  unfold has_technology. intro L. apply String.eqb_eq in L. now rewrite L.
Qed.

Lemma iadd_number acc a bw :
  number acc = Some a -> iadd acc bw = Ok (VFloat (a + bw)).
Proof. destruct acc; simpl; intro H; now inversion H. Qed.

(** The loop of lines 41-47 from any two numeric accumulators. *)
Lemma sum_bandwidth_from rows : forall bw4 bw5 a4 a5,
  number bw4 = Some a4 -> number bw5 = Some a5 ->
  (forall r, In r rows -> exists bw, py_float (bandwidth r) = Ok bw) ->
  exists b4 b5 t4 t5,
    sum_bandwidth rows bw4 bw5 = Ok (b4, b5) /\
    total_from a4 (filter (has_technology "LTE") rows) = Ok t4 /\
    total_from a5 (filter (has_technology "5G") rows) = Ok t5 /\
    number b4 = Some t4 /\ number b5 = Some t5 /\
    (filter (has_technology "LTE") rows = [] -> b4 = bw4) /\
    (filter (has_technology "5G") rows = [] -> b5 = bw5).
Proof.
  induction rows as [|row rows IH]; intros bw4 bw5 a4 a5 H4 H5 Hp.
  - exists bw4, bw5, a4, a5. simpl. unfold total_from. simpl. auto 10.
  - destruct (Hp row) as [bw Hbw]; [now left|].
    assert (Hp' : forall r, In r rows -> exists bw, py_float (bandwidth r) = Ok bw)
      by (intros; apply Hp; now right).
    rewrite sum_bandwidth_cons, !filter_technology_cons, Hbw. unfold bind at 1.
    destruct (has_technology "LTE" row) eqn:L.
    + rewrite (LTE_not_5G _ L), (iadd_number _ _ _ H4). unfold bind at 1.
      destruct (IH (VFloat (a4 + bw)) bw5 (a4 + bw)%float a5 eq_refl H5 Hp')
        as (b4 & b5 & t4 & t5 & E & T4 & T5 & N4 & N5 & _ & Z5).
      exists b4, b5, t4, t5. rewrite (total_from_cons _ _ _ _ Hbw).
      repeat split; auto. discriminate.
    + destruct (has_technology "5G" row) eqn:G.
      * rewrite (iadd_number _ _ _ H5). unfold bind at 1.
        destruct (IH bw4 (VFloat (a5 + bw)) a4 (a5 + bw)%float H4 eq_refl Hp')
          as (b4 & b5 & t4 & t5 & E & T4 & T5 & N4 & N5 & Z4 & _).
        exists b4, b5, t4, t5. rewrite (total_from_cons _ _ _ _ Hbw).
        repeat split; auto. discriminate.
      * destruct (IH bw4 bw5 a4 a5 H4 H5 Hp')
          as (b4 & b5 & t4 & t5 & E & T4 & T5 & N4 & N5 & Z4 & Z5).
        exists b4, b5, t4, t5. repeat split; auto.
Qed.

(** A bandwidth that [float] refuses ends the loop with [ValueError]. *)
Lemma sum_bandwidth_raise rows : forall bw4 bw5 a4 a5,
  number bw4 = Some a4 -> number bw5 = Some a5 ->
  (exists r, In r rows /\ py_float (bandwidth r) = Raise ValueError) ->
  sum_bandwidth rows bw4 bw5 = Raise ValueError.
Proof.
  induction rows as [|row rows IH]; intros bw4 bw5 a4 a5 H4 H5 [r [Hin Hr]];
    [destruct Hin|].
  rewrite sum_bandwidth_cons.
  destruct (py_float (bandwidth row)) as [bw|e] eqn:Hbw; unfold bind at 1.
  - assert (Hr' : exists r, In r rows /\ py_float (bandwidth r) = Raise ValueError).
    { destruct Hin as [->|Hin]; [congruence | now exists r]. }
    destruct (has_technology "LTE" row).
    + rewrite (iadd_number _ _ _ H4). unfold bind at 1. eapply IH; eauto. reflexivity.
    + destruct (has_technology "5G" row).
      * rewrite (iadd_number _ _ _ H5). unfold bind at 1. eapply IH; eauto. reflexivity.
      * eapply IH; eauto.
  - destruct (bandwidth row); simpl in Hbw; try discriminate.
    destruct (float_of_str s); congruence.
Qed.

Lemma py_float_result c :
  (exists bw, py_float c = Ok bw) \/ py_float c = Raise ValueError.
Proof.
  destruct c; simpl; eauto. destruct (float_of_str s); eauto.
Qed.

(** The row made for a group whose bandwidths all convert. *)
Lemma aggregate_group_ok fr k first rest :
  (forall r, In r (first :: rest) -> exists bw, py_float (bandwidth r) = Ok bw) ->
  exists a,
    aggregate_group fr k (first :: rest) = Ok a /\
    sums_by_technology (first :: rest) a /\
    joined_in_order (first :: rest) a /\
    Agg.record_id a = row_value fr (record_id first) /\
    Agg.structure_height a = row_value fr (structure_height first).
Proof.
  intro Hp.
  destruct (sum_bandwidth_from (first :: rest) (VInt 0) (VInt 0) 0%float 0%float
              eq_refl eq_refl Hp)
    as (b4 & b5 & t4 & t5 & E & T4 & T5 & N4 & N5 & Z4 & Z5).
  unfold aggregate_group. rewrite E. simpl.
  eexists. split; [reflexivity|]. split; [|split; [|split]]; simpl; auto.
  - exists t4, t5. simpl. auto 10.
  - unfold joined_in_order, joined. simpl. auto.
Qed.

Lemma aggregate_group_raise fr k first rest :
  (exists r, In r (first :: rest) /\ py_float (bandwidth r) = Raise ValueError) ->
  aggregate_group fr k (first :: rest) = Raise ValueError.
Proof.
  intro H. unfold aggregate_group.
  rewrite (sum_bandwidth_raise _ (VInt 0) (VInt 0) 0%float 0%float eq_refl eq_refl H).
  reflexivity.
Qed.

Lemma aggregate_group_result fr k first rest :
  (exists a, aggregate_group fr k (first :: rest) = Ok a) \/
  aggregate_group fr k (first :: rest) = Raise ValueError.
Proof.
  assert (D : (forall r, In r (first :: rest) -> exists bw, py_float (bandwidth r) = Ok bw)
              \/ (exists r, In r (first :: rest) /\ py_float (bandwidth r) = Raise ValueError)).
  { generalize (first :: rest) as l. induction l as [|r l [IH|[x [Hx Ex]]]].
    - left. intros r [].
    - destruct (py_float_result (bandwidth r)) as [Hr|Hr].
      + left. intros x [<-|Hx]; auto.
      + right. exists r. split; auto. now left.
    - right. exists x. split; auto. now right. }
  destruct D as [D|D].
  - left. destruct (aggregate_group_ok fr k first rest D) as [a [Ha _]]. eauto.
  - right. now apply aggregate_group_raise.
Qed.

(** ** The loop over the groups *)

Lemma groupby_In df g :
  In g (groupby df) ->
  In (fst g) (group_keys df) /\ snd g = group_rows df (fst g) /\
  exists first rest, snd g = first :: rest.
Proof.
  unfold groupby. intro H. apply in_map_iff in H. destruct H as [k [<- Hk]].
  simpl. repeat split; auto.
  pose proof (group_rows_nonempty df k Hk) as N.
  destruct (group_rows df k) as [|first rest]; [congruence|eauto].
Qed.

Lemma group_rows_In df k r :
  In r (group_rows df k) ->
  In r df /\ key_eqb (record_id r) k = true /\ notna (record_id r) = true.
Proof.
  unfold group_rows. intro H. apply filter_In in H. destruct H as [H E].
  repeat split; auto. now apply key_eqb_notna in E.
Qed.

(** What the loop makes of a frame whose bandwidths convert: one row for
    each group, in the order of the groups. *)
Lemma aggregate_ok df :
  parseable df ->
  exists results,
    aggregate df = Ok results /\
    Forall2 (fun g a =>
               sums_by_technology (snd g) a /\ joined_in_order (snd g) a /\
               (exists first rest,
                   snd g = first :: rest /\
                   Agg.record_id a = row_value (float_rows df) (record_id first) /\
                   Agg.structure_height a
                   = row_value (float_rows df) (structure_height first)))
            (groupby df) results.
Proof.
  intro Hp. unfold aggregate.
  assert (G : forall g, In g (groupby df) ->
                exists a, aggregate_group (float_rows df) (fst g) (snd g) = Ok a /\
                  sums_by_technology (snd g) a /\ joined_in_order (snd g) a /\
                  (exists first rest,
                      snd g = first :: rest /\
                      Agg.record_id a = row_value (float_rows df) (record_id first) /\
                      Agg.structure_height a
                      = row_value (float_rows df) (structure_height first))).
  { intros g Hg. apply groupby_In in Hg.
    destruct Hg as (Hk & E & first & rest & Eg).
    rewrite Eg.
    destruct (aggregate_group_ok (float_rows df) (fst g) first rest)
      as (a & Ha & S & J & R & Hh).
    - intros r Hr. rewrite <- Eg, E in Hr. apply group_rows_In in Hr.
      destruct Hr as (Hr & _ & Hn). now apply Hp.
    - exists a. split; [|split; [|split]]; auto. exists first, rest. auto. }
  destruct (mapM_total (fun g => aggregate_group (float_rows df) (fst g) (snd g))
                       (groupby df))
    as [results Hres].
  { intros g Hg. destruct (G g Hg) as [a [Ha _]]. eauto. }
  exists results. split; auto.
  apply mapM_Forall2 in Hres.
  revert G. induction Hres as [|g a gs rs Ha _ IH]; intro G; constructor.
  - destruct (G g) as (a' & Ha' & P); [now left|].
    rewrite Ha in Ha'. injection Ha' as <-. exact P.
  - apply IH. intros; apply G. now right.
Qed.

(** One bandwidth that [float] refuses, in a row that has a key, ends the
    loop with [ValueError]. *)
Lemma aggregate_raise df :
  (exists r, In r df /\ notna (record_id r) = true /\
             py_float (bandwidth r) = Raise ValueError) ->
  aggregate df = Raise ValueError.
Proof.
  intros (r & Hr & Hn & Hbw). unfold aggregate. apply mapM_raise.
  - intros g Hg. apply groupby_In in Hg.
    destruct Hg as (_ & _ & first & rest & ->). apply aggregate_group_result.
  - destruct (group_keys_cover df r Hr Hn) as (k & Hk & E).
    exists (k, group_rows df k). split.
    + unfold groupby. apply in_map_iff. now exists k.
    + simpl. pose proof (group_rows_nonempty df k Hk) as N.
      assert (Hin : In r (group_rows df k)) by (apply filter_In; auto).
      destruct (group_rows df k) as [|first rest]; [destruct Hin|].
      apply aggregate_group_raise. now exists r.
Qed.
End AggregationFacts.

(** ** Reshaping *)

Lemma Forall2_chain {A B C : Type} (R : A -> B -> Prop) (S : B -> C -> Prop) l1 l2 :
  Forall2 R l1 l2 -> forall l3, Forall2 S l2 l3 ->
  Forall2 (fun a c => exists b, R a b /\ S b c) l1 l3.
Proof.
  induction 1 as [|a b l1 l2 Hab _ IH]; intros l3 H3; inversion H3; subst;
    constructor; eauto.
Qed.

Lemma Forall2_mapped {A B C : Type} (f : A -> B) (R : B -> C -> Prop) l l' :
  Forall2 R (map f l) l' -> Forall2 (fun a c => R (f a) c) l l'.
Proof.
  revert l'. induction l as [|a l IH]; intros l' H; inversion H; subst;
    constructor; auto.
Qed.

Lemma Forall2_right {A B : Type} (R : A -> B -> Prop) (P : B -> Prop) l l' :
  Forall2 R l l' -> (forall a b, R a b -> P b) -> Forall P l'.
Proof. induction 1; intro HP; constructor; eauto. Qed.

Lemma Forall2_weaken {A B : Type} (R S : A -> B -> Prop) l l' :
  Forall2 R l l' -> (forall a b, In a l -> R a b -> S a b) -> Forall2 S l l'.
Proof.
  induction 1 as [|a b l l' Hab _ IH]; intro HS; constructor.
  - apply HS; auto. now left.
  - apply IH. intros; apply HS; auto. now right.
Qed.

Lemma nan_not_below f : is_nan f = true -> (f <? 10)%float = false.
Proof.
  intro H. rewrite ltb_spec. unfold Prim2SF at 1. rewrite H. reflexivity.
Qed.

Lemma site_type_cases x ty :
  site_type x = Ok ty ->
  (below_10 x /\ ty = "Micro") \/ (~ below_10 x /\ ty = "Macro").
Proof.
  destruct x as [s|z|f]; simpl; intro H; [discriminate| |].
  - destruct (Z.ltb_spec z 10); injection H as <-; [left|right]; split; auto; lia.
  - destruct (f <? 10)%float eqn:L; injection H as <-; [left|right]; split; auto.
Qed.

Lemma site_type_total x : is_number x = true -> exists ty, site_type x = Ok ty.
Proof. destruct x; simpl; eauto; discriminate. Qed.

Lemma infer_float col f : infer col (VFloat f) = VFloat f.
Proof. unfold infer. now destruct (float64_column col). Qed.

Lemma infer_single c : infer [c] c = c.
Proof. now destruct c. Qed.

Lemma text_column_dtype (col : list cell) s :
  In (VStr s) col -> int64_dtype col || float64_dtype col = false.
Proof.
  intro H. unfold int64_dtype, float64_dtype. apply orb_false_iff.
  split; apply not_true_is_false; intro F;
    rewrite forallb_forall in F; now specialize (F _ H).
Qed.

(** The rows of a frame with a text among its [record_id]s are not rows of
    floats. *)
Lemma float_rows_text_id df r s :
  In r df -> record_id r = VStr s -> float_rows df = false.
Proof.
  intros Hr E.
  assert (N : int64_dtype (map record_id df) || float64_dtype (map record_id df)
              = false).
  { apply (text_column_dtype _ s). rewrite <- E. now apply in_map. }
  unfold float_rows, columns. cbn [forallb]. rewrite N.
  now rewrite andb_false_r.
Qed.

Lemma row_value_float fr f : row_value fr (VFloat f) = VFloat f.
Proof. now destruct fr. Qed.

Lemma is_number_row_value fr c : is_number (row_value fr c) = is_number c.
Proof. destruct fr, c; reflexivity. Qed.

(** The fields of a reshaped row. *)
Lemma transform_row_fields province licensee_name a out :
  transform_row province licensee_name a = Ok out ->
  site_type (Agg.structure_height a) = Ok (Out.Type_ out) /\
  Out.Height_m out = Agg.structure_height a /\
  Out.Micro out = marker "Micro" (Out.Type_ out) /\
  Out.Macro out = marker "Macro" (Out.Type_ out) /\
  Out.Tower_ID out = Agg.record_id a /\
  Out.TECHNOLOGY out = replace "LTE" "4G" (Agg.technology a) /\
  Out.SERVICES out = replace "~" "|" (Agg.licence_category a) /\
  Out._4G_BW out = Agg._4G_BW a /\
  Out._5G_BW out = Agg._5G_BW a.
Proof.
  unfold transform_row. destruct (site_type (Agg.structure_height a)) as [ty|e];
    simpl; intro H; [|discriminate].
  injection H as <-. simpl. auto 10.
Qed.

Lemma transform_rows province licensee_name results rows :
  transform province licensee_name results = Ok rows ->
  results <> [] /\
  Forall2 (fun a out =>
             transform_row province licensee_name (typed_row results a) = Ok out)
          results rows.
Proof.
  unfold transform, DataFrame_of. destruct results as [|a results]; [discriminate|].
  intro H. split; [discriminate|].
  apply mapM_Forall2 in H. now apply Forall2_mapped in H.
Qed.

Lemma classified out ty :
  site_type (Out.Height_m out) = Ok ty -> Out.Type_ out = ty ->
  Out.Micro out = marker "Micro" ty -> Out.Macro out = marker "Macro" ty ->
  (below_10 (Out.Height_m out) /\ micro_row out) \/
  (~ below_10 (Out.Height_m out) /\ macro_row out).
Proof.
  intros H T Mi Ma. unfold micro_row, macro_row.
  destruct (site_type_cases _ _ H) as [[B ->]|[B ->]]; [left|right];
    repeat split; auto.
Qed.

Section ReportFacts.
Context {py : PyText}.

Lemma report_rows df licensee_name province rows :
  report df licensee_name province = Ok rows ->
  exists results,
    aggregate df = Ok results /\ results <> [] /\
    Forall2 (fun a out =>
               transform_row province licensee_name (typed_row results a) = Ok out)
            results rows.
Proof.
  unfold report. destruct (aggregate df) as [results|e]; simpl; [|discriminate].
  intro H. apply transform_rows in H. exists results. tauto.
Qed.

Lemma aggregate_group_first fr k g a :
  aggregate_group fr k g = Ok a ->
  exists first rest,
    g = first :: rest /\
    Agg.record_id a = row_value fr (record_id first) /\
    Agg.structure_height a = row_value fr (structure_height first).
Proof.
  unfold aggregate_group. destruct g as [|first rest]; [discriminate|].
  destruct (sum_bandwidth (first :: rest) (VInt 0) (VInt 0)) as [acc|e];
    unfold bind; [|discriminate].
  intro H. injection H as <-. exists first, rest. auto.
Qed.

(** Every row of the table is classified by its own height. *)
Lemma report_classified df licensee_name province rows :
  report df licensee_name province = Ok rows ->
  Forall (fun out =>
            (below_10 (Out.Height_m out) /\ micro_row out) \/
            (~ below_10 (Out.Height_m out) /\ macro_row out)) rows.
Proof.
  intro H. apply report_rows in H. destruct H as (results & _ & _ & F).
  eapply Forall2_right; [exact F|]. simpl.
  intros a out T. apply transform_row_fields in T.
  destruct T as (S & Hh & Mi & Ma & _).
  apply (classified out (Out.Type_ out)); auto. now rewrite Hh.
Qed.

(** The rows of the table stand, one for one and in order, for the groups. *)
Lemma report_by_group df licensee_name province rows :
  report df licensee_name province = Ok rows ->
  Forall2 (fun g out =>
             exists first rest col,
               snd g = first :: rest /\
               Out.Height_m out
               = infer col (row_value (float_rows df) (structure_height first)) /\
               site_type (Out.Height_m out) = Ok (Out.Type_ out) /\
               Out.Micro out = marker "Micro" (Out.Type_ out) /\
               Out.Macro out = marker "Macro" (Out.Type_ out))
          (groupby df) rows.
Proof.
  intro H. apply report_rows in H. destruct H as (results & A & _ & F).
  unfold aggregate in A. apply mapM_Forall2 in A.
  eapply Forall2_weaken; [exact (Forall2_chain _ _ _ _ A _ F)|].
  simpl. intros g out _ (a & G & T).
  apply aggregate_group_first in G. destruct G as (first & rest & E & _ & Hh).
  apply transform_row_fields in T. destruct T as (S & Hm & Mi & Ma & _).
  simpl in Hm, S. exists first, rest, (map Agg.structure_height results).
  rewrite Hm. rewrite <- Hh. auto.
Qed.
End ReportFacts.

Lemma find_write_sheet sheet_name sh book :
  find_sheet sheet_name (write_sheet sheet_name sh book) = Some sh.
Proof.
  induction book as [|[n s] book IH]; simpl.
  - now rewrite String.eqb_refl.
  - destruct (n =? sheet_name) eqn:E; simpl.
    + now rewrite String.eqb_refl.
    + now rewrite E.
Qed.

Lemma find_to_excel file sheet_name sh :
  find_sheet sheet_name (to_excel file sheet_name sh) = Some sh.
Proof.
  destruct file as [book|]; simpl.
  - apply find_write_sheet.
  - now rewrite String.eqb_refl.
Qed.

(** ** Keys by value *)

Lemma sorted_ascending keys :
  Forall (fun k => notna k = true) keys ->
  StronglySorted key_lt keys -> StronglySorted ascending keys.
Proof.
  intros N S. induction S as [|k keys S IH Hk]; [constructor|].
  inversion N as [|? ? Nk N']; subst. constructor; auto.
  eapply Forall_impl; [|exact Hk]. intros b Hb. now apply key_ltb_ascending.
Qed.

Lemma group_keys_notna df : Forall (fun k => notna k = true) (group_keys df).
Proof. apply Forall_forall. intros k Hk. now apply group_keys_In in Hk. Qed.

Lemma group_keys_ascending df : StronglySorted ascending (group_keys df).
Proof.
  apply sorted_ascending; [apply group_keys_notna | apply group_keys_sorted].
Qed.

Lemma ascending_distinct keys :
  StronglySorted ascending keys -> distinct_values keys.
Proof.
  induction 1 as [|k keys S IH Hk]; constructor; auto.
  eapply Forall_impl; [|exact Hk]. intros b. apply ascending_not_equal.
Qed.

Lemma distinct_values_In keys a b :
  distinct_values keys -> In a keys -> In b keys ->
  key_value a = key_value b -> a = b.
Proof.
  induction 1 as [|k keys Hk _ IH]; [intros []|].
  rewrite Forall_forall in Hk.
  intros [<-|Ha] [<-|Hb] E; auto.
  - now apply Hk in Hb.
  - symmetry in E. now apply Hk in Ha.
Qed.

Lemma ascending_same_values keys keys' :
  Forall2 (fun k k' => key_value k' = key_value k) keys keys' ->
  StronglySorted ascending keys -> StronglySorted ascending keys'.
Proof.
  induction 1 as [|k k' keys keys' E F IH]; intro S; [constructor|].
  inversion S as [|? ? S' Hk]; subst. constructor; auto.
  clear -E F Hk. induction F as [|x x' l l' Ex F IH]; [constructor|].
  inversion Hk; subst. constructor; auto.
  apply (ascending_value_l _ _ _ E). now apply (ascending_value_r _ _ _ Ex).
Qed.

Lemma groupby_keys df : map fst (groupby df) = group_keys df.
Proof. unfold groupby. rewrite map_map. simpl. apply map_id. Qed.

Lemma group_rows_has_key df k r :
  In r (group_rows df k) <-> In r df /\ has_key k r.
Proof.
  unfold group_rows, has_key. rewrite filter_In, key_eqb_value.
  split; intros (H & E & N); repeat split; auto; congruence.
Qed.






(** ** Joined text *)

Lemma concat_join sep l : String.concat sep l = join sep l.
Proof.
  induction l as [|s l IH]; [reflexivity|].
  destruct l as [|s' l]; [reflexivity|].
  change (String.concat sep (s :: s' :: l))
    with (s ++ sep ++ String.concat sep (s' :: l))%string.
  now rewrite IH.
Qed.

Section JoinedFacts.
Context {py : PyText}.

Lemma joined_delimited group_df a :
  joined_in_order group_df a -> delimited_in_order group_df a.
Proof.
  unfold joined_in_order, delimited_in_order.
  intros (A & B & C & D & E). repeat split; rewrite concat_join; assumption.
Qed.

Lemma joined_pair r1 r2 a : joined_in_order [r1; r2] a -> pair_delimited r1 r2 a.
Proof. intro H. exact H. Qed.

End JoinedFacts.

(* ================================================================== *)
(** * The claims *)

(** C1: for every group of rows sharing one [record_id], the field [4G_BW]
    of the aggregated row is the sum of [float(bandwidth)] over exactly the
    rows whose technology text is "LTE", and [5G_BW] the sum over exactly
    those whose technology text is "5G"; both start at 0, and a row of any
    other technology adds to neither and raises nothing. *)
Theorem C1_bandwidth_sums {py : PyText} (df : DataFrame) :
  parseable df ->
  exists results,
    aggregate df = Ok results /\
    Forall2 (fun g a => sums_by_technology (snd g) a) (groupby df) results.
Proof.
  intro Hp. destruct (aggregate_ok df Hp) as (results & A & F).
  exists results. split; auto.
  eapply Forall2_weaken; [exact F|]. simpl. tauto.
Qed.

Lemma C1_bandwidth_sums_witness :
  exists results,
    aggregate (py := CPython.text) towers_M20_E5015 = Ok results /\
    Forall2 (fun g a => sums_by_technology (py := CPython.text) (snd g) a)
            (groupby towers_M20_E5015) results.
Proof.
  apply (C1_bandwidth_sums (py := CPython.text) towers_M20_E5015).
  intros r [<-|[<-|[<-|[]]]] _; eexists; reflexivity.
Defined.

(** C2, as the code has it: the rows whose [record_id] is not missing are
    split among the groups, none dropped and none repeated; the groups are
    those of the distinct [record_id] values among them, and a row is in the
    group of its own [record_id] and in no other; there is one aggregated
    row for each group, and its five texts are the texts of the rows of its
    group, delimited by "~".  Rows whose [record_id] is missing are in no
    group. *)
Theorem C2_keyed_rows_grouped_once {py : PyText} (df : DataFrame) :
  parseable df ->
  exists results,
    aggregate df = Ok results /\
    Permutation (List.concat (map snd (groupby df))) (keyed df) /\
    List.length (List.concat (map snd (groupby df))) = List.length (keyed df) /\
    List.length results = List.length (groupby df) /\
    distinct_values (map fst (groupby df)) /\
    (forall g, In g (groupby df) ->
               exists r, In r (keyed df) /\ record_id r = fst g) /\
    (forall g r, In g (groupby df) ->
                 (In r (snd g) <-> In r df /\ has_key (fst g) r)) /\
    (forall r, In r (keyed df) ->
               exists g, In g (groupby df) /\ In r (snd g) /\
                         forall g', In g' (groupby df) -> In r (snd g') -> g' = g) /\
    Forall2 (fun g a => delimited_in_order (snd g) a) (groupby df) results.
Proof.
  intro Hp. destruct (aggregate_ok df Hp) as (results & A & F).
  exists results. split; auto.
  assert (D : distinct_values (map fst (groupby df))).
  { rewrite groupby_keys. apply ascending_distinct, group_keys_ascending. }
  assert (M : forall g r, In g (groupby df) ->
                (In r (snd g) <-> In r df /\ has_key (fst g) r)).
  { intros g r Hg. apply groupby_In in Hg. destruct Hg as (_ & -> & _).
    apply group_rows_has_key. }
  split; [apply groupby_partition|].
  split; [apply Permutation_length, groupby_partition|].
  split; [symmetry; eapply Forall2_length; eauto|].
  split; [exact D|].
  split; [|split; [exact M|split]].
  - intros g Hg. apply groupby_In in Hg. destruct Hg as (Hk & _).
    apply group_keys_In in Hk. destruct Hk as (Hn & r & Hr & E).
    exists r. split; auto. apply filter_In. split; auto. now rewrite E.
  - intros r Hr. apply filter_In in Hr. destruct Hr as [Hr Hn].
    destruct (group_keys_cover df r Hr Hn) as (k & Hk & E).
    assert (Hg : In (k, group_rows df k) (groupby df)).
    { unfold groupby. apply in_map_iff. now exists k. }
    exists (k, group_rows df k). split; auto. split.
    + apply filter_In. auto.
    + intros g' Hg' Hr'. apply (M g' r Hg') in Hr'. destruct Hr' as (_ & E' & _).
      apply key_eqb_value in E. destruct E as (E & _).
      assert (K : fst g' = k).
      { apply (distinct_values_In (map fst (groupby df))); auto.
        - now apply in_map.
        - now apply (in_map fst) in Hg.
        - congruence. }
      apply groupby_In in Hg'. destruct Hg' as (_ & Eg & _).
      destruct g' as [k' rows']. simpl in *. congruence.
  - eapply Forall2_weaken; [exact F|]. simpl.
    intros g a _ (_ & J & _). now apply joined_delimited.
Qed.

Lemma C2_keyed_rows_grouped_once_witness :
  exists results,
    aggregate (py := CPython.text) towers_and_unkeyed = Ok results /\
    Permutation (List.concat (map snd (groupby towers_and_unkeyed)))
                (keyed towers_and_unkeyed) /\
    List.length (List.concat (map snd (groupby towers_and_unkeyed)))
    = List.length (keyed towers_and_unkeyed) /\
    List.length results = List.length (groupby towers_and_unkeyed) /\
    distinct_values (map fst (groupby towers_and_unkeyed)) /\
    (forall g, In g (groupby towers_and_unkeyed) ->
               exists r, In r (keyed towers_and_unkeyed) /\ record_id r = fst g) /\
    (forall g r, In g (groupby towers_and_unkeyed) ->
                 (In r (snd g) <-> In r towers_and_unkeyed /\ has_key (fst g) r)) /\
    (forall r, In r (keyed towers_and_unkeyed) ->
               exists g, In g (groupby towers_and_unkeyed) /\ In r (snd g) /\
                         forall g', In g' (groupby towers_and_unkeyed) ->
                                    In r (snd g') -> g' = g) /\
    Forall2 (fun g a => delimited_in_order (py := CPython.text) (snd g) a)
            (groupby towers_and_unkeyed) results.
Proof.
  apply (C2_keyed_rows_grouped_once (py := CPython.text) towers_and_unkeyed).
  intros r [<-|[<-|[<-|[<-|[<-|[<-|[]]]]]]] _; eexists; reflexivity.
Defined.

(** C2 as stated fails: of the two rows of [unkeyed_sector] one only is in
    a group, and the texts of the other ("5G", "100") are in no aggregated
    row. *)
Lemma C2_counterexample :
  List.length unkeyed_sector = 2%nat /\
  map snd (groupby unkeyed_sector)
    = [[sector (VStr "E5015") (VInt 30) (VStr "LTE") (VInt 10)]] /\
  List.length (List.concat (map snd (groupby unkeyed_sector))) = 1%nat /\
  aggregate (py := CPython.text) unkeyed_sector
    = Ok [{| Agg.Tier_4_id := VStr "4-077";
             Agg.record_id := VStr "E5015";
             Agg.latitude := VFloat 45.5;
             Agg.longitude := VFloat (-73.5);
             Agg.structure_height := VInt 30;
             Agg.licence_category := "PCS";
             Agg.tx_ant_azimuth := "120";
             Agg.technology := "LTE";
             Agg.bandwidth := "10";
             Agg.tx_power := "40";
             Agg._4G_BW := VFloat 10;
             Agg._5G_BW := VInt 0 |}].
Proof. repeat split; vm_compute; reflexivity. Qed.

(** C3, as the code has it: the groups are enumerated in ascending order of
    the value of their key (numbers by value, text by code point, numbers
    before text), and the aggregated rows are made in the order of their
    groups, each with the [record_id] of the first row of its group, which
    has the key of the group; unless the rows of the frame are rows of
    floats, the aggregated rows are so in ascending order of [record_id]. *)
Theorem C3_groups_in_key_order {py : PyText} (df : DataFrame) :
  parseable df ->
  exists results,
    aggregate df = Ok results /\
    StronglySorted ascending (map fst (groupby df)) /\
    Forall2 (fun g a =>
               exists first rest,
                 snd g = first :: rest /\
                 has_key (fst g) first /\
                 Agg.record_id a = row_value (float_rows df) (record_id first))
            (groupby df) results /\
    (float_rows df = false ->
     StronglySorted ascending (map Agg.record_id results)).
Proof.
  intro Hp. destruct (aggregate_ok df Hp) as (results & A & F).
  exists results. split; auto.
  assert (S : StronglySorted ascending (map fst (groupby df)))
    by (rewrite groupby_keys; apply group_keys_ascending).
  assert (P : Forall2 (fun g a =>
                exists first rest,
                  snd g = first :: rest /\
                  has_key (fst g) first /\
                  Agg.record_id a = row_value (float_rows df) (record_id first))
              (groupby df) results).
  { eapply Forall2_weaken; [exact F|]. simpl.
    intros g a Hg (_ & _ & first & rest & E & R & _).
    exists first, rest. split; auto. split; auto.
    apply groupby_In in Hg. destruct Hg as (_ & Eg & _).
    assert (X : group_rows df (fst g) = first :: rest)
      by (transitivity (snd g); [symmetry; exact Eg | exact E]).
    apply (group_rows_has_key df). rewrite X. now left. }
  split; auto. split; auto.
  intro Fr. apply (ascending_same_values (map fst (groupby df))); auto.
  rewrite Fr in P. clear -P.
  induction P as [|g a gs rs (first & rest & _ & (E & _) & R) _ IH];
    simpl; constructor; auto.
  rewrite R. exact E.
Qed.

Lemma C3_groups_in_key_order_witness :
  exists results,
    aggregate (py := CPython.text) mixed_record_ids = Ok results /\
    StronglySorted ascending (map fst (groupby mixed_record_ids)) /\
    Forall2 (fun g a =>
               exists first rest,
                 snd g = first :: rest /\
                 has_key (fst g) first /\
                 Agg.record_id a
                 = row_value (float_rows mixed_record_ids) (record_id first))
            (groupby mixed_record_ids) results /\
    (float_rows mixed_record_ids = false ->
     StronglySorted ascending (map Agg.record_id results)).
Proof.
  apply (C3_groups_in_key_order (py := CPython.text) mixed_record_ids).
  intros r [<-|[<-|[<-|[<-|[]]]]] _; eexists; reflexivity.
Defined.

(** C3 as stated fails: tower M20 is read first and reported last. *)
Lemma C3_counterexample :
  map record_id towers_M20_E5015 = [VStr "M20"; VStr "E5015"; VStr "M20"] /\
  map fst (groupby towers_M20_E5015) = [VStr "E5015"; VStr "M20"] /\
  unique (map record_id towers_M20_E5015) = [VStr "M20"; VStr "E5015"] /\
  match report (py := CPython.text) towers_M20_E5015 "TELUS" "QC" with
  | Ok rows => map Out.Tower_ID rows = [VStr "E5015"; VStr "M20"]
  | Raise _ => False
  end.
Proof. repeat split; vm_compute; reflexivity. Qed.

(** C4: in every row of the table, [Type] is "Micro" exactly when
    [Height (m)] is strictly less than 10, and "Macro" otherwise; a height
    of exactly 10 gives "Macro" and a height of 9.999 gives "Micro". *)
Theorem C4_type_from_height {py : PyText} (df : DataFrame)
    (licensee_name province : string) (rows : list Out.t) :
  report df licensee_name province = Ok rows ->
  Forall (fun out =>
            (below_10 (Out.Height_m out) /\ Out.Type_ out = "Micro") \/
            (~ below_10 (Out.Height_m out) /\ Out.Type_ out = "Macro")) rows /\
  site_type (VInt 10) = Ok "Macro" /\
  site_type (VFloat 10) = Ok "Macro" /\
  site_type (VFloat 0x1.3ff7ced916873p+3) = Ok "Micro" /\
  CPython.parse_float "9.999" = Some 0x1.3ff7ced916873p+3%float.
Proof.
  intro H. split; [|repeat split; vm_compute; reflexivity].
  eapply Forall_impl; [|exact (report_classified _ _ _ _ H)].
  unfold micro_row, macro_row. simpl. tauto.
Qed.

Lemma C4_type_from_height_witness :
  Forall (fun out =>
            (below_10 (Out.Height_m out) /\ Out.Type_ out = "Micro") \/
            (~ below_10 (Out.Height_m out) /\ Out.Type_ out = "Macro"))
         three_heights_rows /\
  site_type (VInt 10) = Ok "Macro" /\
  site_type (VFloat 10) = Ok "Macro" /\
  site_type (VFloat 0x1.3ff7ced916873p+3) = Ok "Micro" /\
  CPython.parse_float "9.999" = Some 0x1.3ff7ced916873p+3%float.
Proof.
  apply (C4_type_from_height (py := CPython.text) three_heights "Videotron." "QC").
  vm_compute. reflexivity.
Defined.

(** C5, as the code has it: the three rows of tower E5015 (LTE 10, LTE 10,
    5G 100) give one row of the table, with [4G_BW] 20, [5G_BW] 100 and the
    [TECHNOLOGY] text "4G~4G~5G": two tokens 4G and one token 5G, joined by
    "~". *)
Theorem C5_tower_E5015 {py : PyText} (r1 r2 r3 : InputRow)
    (licensee_name province : string) :
  record_id r1 = VStr "E5015" -> technology r1 = VStr "LTE" ->
  py_float (bandwidth r1) = Ok 10%float ->
  record_id r2 = VStr "E5015" -> technology r2 = VStr "LTE" ->
  py_float (bandwidth r2) = Ok 10%float ->
  record_id r3 = VStr "E5015" -> technology r3 = VStr "5G" ->
  py_float (bandwidth r3) = Ok 100%float ->
  is_number (structure_height r1) = true ->
  exists out,
    report [r1; r2; r3] licensee_name province = Ok [out] /\
    Out.Tower_ID out = VStr "E5015" /\
    Out._4G_BW out = VFloat 20 /\
    Out._5G_BW out = VFloat 100 /\
    Out.TECHNOLOGY out = "4G~4G~5G".
Proof.
  intros I1 T1 B1 I2 T2 B2 I3 T3 B3 Hh.
  assert (G : groupby [r1; r2; r3] = [(VStr "E5015", [r1; r2; r3])]).
  { unfold groupby, group_keys, group_rows. simpl. rewrite I1, I2, I3. reflexivity. }
  assert (S : sum_bandwidth [r1; r2; r3] (VInt 0) (VInt 0)
              = Ok (VFloat 20, VFloat 100)).
  { rewrite sum_bandwidth_cons. unfold has_technology. rewrite B1, T1.
    cbn [bind py_str]. change ("LTE" =? "LTE") with true. cbn [iadd bind].
    rewrite sum_bandwidth_cons. unfold has_technology. rewrite B2, T2.
    cbn [bind py_str]. change ("LTE" =? "LTE") with true. cbn [iadd bind].
    rewrite sum_bandwidth_cons. unfold has_technology. rewrite B3, T3.
    cbn [bind py_str]. change ("5G" =? "LTE") with false.
    change ("5G" =? "5G") with true. cbn [iadd bind sum_bandwidth].
    reflexivity. }
  destruct (site_type_total _ Hh) as [ty Hty].
  unfold report, aggregate.
  rewrite G, (float_rows_text_id [r1; r2; r3] r1 "E5015" (or_introl eq_refl) I1).
  cbn [mapM fst snd].
  unfold aggregate_group. rewrite S. simpl.
  unfold transform_row. simpl. rewrite !infer_single. rewrite Hty. simpl.
  eexists. split; [reflexivity|]. simpl.
  unfold joined. simpl. rewrite I1, T1, T2, T3. auto.
Qed.

Lemma C5_tower_E5015_witness :
  exists out,
    report (py := CPython.text) tower_E5015 "Rogers Communications Canada Inc." "QC"
      = Ok [out] /\
    Out.Tower_ID out = VStr "E5015" /\
    Out._4G_BW out = VFloat 20 /\
    Out._5G_BW out = VFloat 100 /\
    Out.TECHNOLOGY out = "4G~4G~5G".
Proof.
  apply (C5_tower_E5015 (py := CPython.text)
           (sector (VStr "E5015") (VInt 30) (VStr "LTE") (VInt 10))
           (sector (VStr "E5015") (VInt 30) (VStr "LTE") (VInt 10))
           (sector (VStr "E5015") (VInt 30) (VStr "5G") (VInt 100)));
    reflexivity.
Defined.

(** C5 as stated fails: the [TECHNOLOGY] text of the row is "4G~4G~5G"; it
    has no "|", and is none of the three ways of joining two 4G and one 5G
    by "|". *)
Lemma C5_counterexample :
  report (py := CPython.text) tower_E5015 "Rogers Communications Canada Inc." "QC"
  = Ok [{| Out.Code := VStr "4-077";
           Out.Name := " ";
           Out.Province := "QC";
           Out.Tower_ID := VStr "E5015";
           Out.Licensee := "Rogers Communications Canada Inc.";
           Out.LATITUDE := VFloat 45.5;
           Out.LONGITUDE := VFloat (-73.5);
           Out.Height_m := VInt 30;
           Out.Type_ := "Macro";
           Out.Micro := VStr "-";
           Out.Macro := VInt 1;
           Out.TX_ANT_AZI := "120~120~120";
           Out.SERVICES := "PCS|PCS|PCS";
           Out.TECHNOLOGY := "4G~4G~5G";
           Out.TR_BW_BLOCS := "10~10~100";
           Out._4G_BW := VFloat 20;
           Out._5G_BW := VFloat 100;
           Out.TX_PWR := "40~40~40" |}] /\
  index 0 "|" "4G~4G~5G" = None /\
  forallb (fun tokens => negb ("4G~4G~5G" =? join "|" tokens))
          [["4G"; "4G"; "5G"]; ["4G"; "5G"; "4G"]; ["5G"; "4G"; "4G"]] = true.
Proof. repeat split; vm_compute; reflexivity. Qed.

(** C6: for every group and each of the five variable fields, the
    aggregated text is the concatenation of the texts of the rows of the
    group, in their order in the frame, delimited by "~": for a group of
    one row it is the text of that row, with no delimiter added, and for a
    group of two rows the text of the first, a "~", and the text of the
    second. *)
Theorem C6_joined_in_row_order {py : PyText} (df : DataFrame) :
  parseable df ->
  exists results,
    aggregate df = Ok results /\
    Forall2 (fun g a =>
               snd g = filter (fun r => key_eqb (record_id r) (fst g)) df /\
               delimited_in_order (snd g) a /\
               (forall r, snd g = [r] -> single_unmodified r a) /\
               (forall r1 r2, snd g = [r1; r2] -> pair_delimited r1 r2 a))
            (groupby df) results.
Proof.
  intro Hp. destruct (aggregate_ok df Hp) as (results & A & F).
  exists results. split; auto.
  eapply Forall2_weaken; [exact F|]. simpl.
  intros g a Hg (_ & J & _). split; [now apply groupby_In in Hg|].
  split; [now apply joined_delimited|]. split.
  - intros r E.
    assert (J' : joined_in_order [r] a) by (rewrite <- E; exact J).
    exact J'.
  - intros r1 r2 E. apply joined_pair. rewrite <- E. exact J.
Qed.

Lemma C6_joined_in_row_order_witness :
  exists results,
    aggregate (py := CPython.text) towers_and_unkeyed = Ok results /\
    Forall2 (fun g a =>
               snd g = filter (fun r => key_eqb (record_id r) (fst g))
                              towers_and_unkeyed /\
               delimited_in_order (py := CPython.text) (snd g) a /\
               (forall r, snd g = [r] -> single_unmodified (py := CPython.text) r a) /\
               (forall r1 r2, snd g = [r1; r2] ->
                              pair_delimited (py := CPython.text) r1 r2 a))
            (groupby towers_and_unkeyed) results.
Proof.
  apply (C6_joined_in_row_order (py := CPython.text) towers_and_unkeyed).
  intros r [<-|[<-|[<-|[<-|[<-|[<-|[]]]]]]] _; eexists; reflexivity.
Defined.

(** C7, as the code has it: if the bandwidth of a row whose [record_id] is
    not missing does not convert to a float, the call ends with
    [ValueError]: no table is made and no sheet is written. *)
Theorem C7_bad_bandwidth_aborts {py : PyText} (df : DataFrame)
    (company_name licensee_name province sheet_name : string)
    (file : option Workbook) :
  (exists r, In r df /\ notna (record_id r) = true /\
             py_float (bandwidth r) = Raise ValueError) ->
  aggregate df = Raise ValueError /\
  report df licensee_name province = Raise ValueError /\
  process_company_data df company_name licensee_name province sheet_name file
    = Raise ValueError.
Proof.
  intro H. apply aggregate_raise in H.
  unfold process_company_data, report. rewrite H. auto.
Qed.

Lemma C7_bad_bandwidth_aborts_witness :
  aggregate (py := CPython.text) bad_bandwidth = Raise ValueError /\
  report (py := CPython.text) bad_bandwidth "TELUS" "QC" = Raise ValueError /\
  process_company_data (py := CPython.text) bad_bandwidth
    "TELUS" "TELUS" "QC" "TELUS" None = Raise ValueError.
Proof.
  apply (C7_bad_bandwidth_aborts (py := CPython.text) bad_bandwidth).
  exists (sector (VStr "E5015") (VInt 30) (VStr "UMTS") (VStr "ten")).
  split; [right; left; reflexivity|]. split; reflexivity.
Defined.

(** C7 as stated fails: the bandwidth of the first row of
    [missing_record_id] does not convert, and the call still writes the
    sheet, with the row of tower E5015. *)
Lemma C7_counterexample :
  map (fun r => py_float (py := CPython.text) (bandwidth r)) missing_record_id
    = [Raise ValueError; Ok 10%float] /\
  process_company_data (py := CPython.text) missing_record_id
    "Rogers" "Rogers Communications Canada Inc." "QC" "Rogers" None
  = Ok [("Rogers",
         {| header := final_columns;
            body := [[VStr "4-077"; VStr " "; VStr "QC"; VStr "E5015";
                      VStr "Rogers Communications Canada Inc.";
                      VFloat 45.5; VFloat (-73.5); VInt 30;
                      VStr "Macro"; VStr "-"; VInt 1;
                      VStr "120"; VStr "PCS"; VStr "4G"; VStr "10";
                      VFloat 10; VInt 0; VStr "40"]] |})].
Proof. split; vm_compute; reflexivity. Qed.

(** C8: in every row of the table, [Micro] is 1 if [Type] is "Micro" and
    "-" otherwise, [Macro] is 1 if [Type] is "Macro" and "-" otherwise; the
    two are never both 1 and never both "-". *)
Theorem C8_markers_exclusive {py : PyText} (df : DataFrame)
    (licensee_name province : string) (rows : list Out.t) :
  report df licensee_name province = Ok rows ->
  Forall (fun out =>
            Out.Micro out = (if Out.Type_ out =? "Micro" then VInt 1 else VStr "-") /\
            Out.Macro out = (if Out.Type_ out =? "Macro" then VInt 1 else VStr "-") /\
            (micro_row out \/ macro_row out) /\
            ~ (Out.Micro out = VInt 1 /\ Out.Macro out = VInt 1) /\
            ~ (Out.Micro out = VStr "-" /\ Out.Macro out = VStr "-")) rows.
Proof.
  intro H. eapply Forall_impl; [|exact (report_classified _ _ _ _ H)].
  unfold micro_row, macro_row. simpl.
  intros out [(_ & T & Mi & Ma)|(_ & T & Mi & Ma)]; rewrite T, Mi, Ma; simpl;
    repeat split; auto; intros [? ?]; discriminate.
Qed.

Lemma C8_markers_exclusive_witness :
  Forall (fun out =>
            Out.Micro out = (if Out.Type_ out =? "Micro" then VInt 1 else VStr "-") /\
            Out.Macro out = (if Out.Type_ out =? "Macro" then VInt 1 else VStr "-") /\
            (micro_row out \/ macro_row out) /\
            ~ (Out.Micro out = VInt 1 /\ Out.Macro out = VInt 1) /\
            ~ (Out.Micro out = VStr "-" /\ Out.Macro out = VStr "-"))
         three_heights_rows.
Proof.
  apply (C8_markers_exclusive (py := CPython.text) three_heights "Videotron." "QC").
  vm_compute. reflexivity.
Defined.



(** C10: a group whose first row has no [structure_height] (NaN) gives a
    row of type "Macro", with [Macro] 1 and [Micro] "-": the comparison of
    NaN with 10 is false and raises nothing. *)
Theorem C10_missing_height_is_macro {py : PyText} (df : DataFrame)
    (licensee_name province : string) (rows : list Out.t) :
  report df licensee_name province = Ok rows ->
  Forall2 (fun g out =>
             forall first rest,
               snd g = first :: rest ->
               isna (structure_height first) = true ->
               macro_row out)
          (groupby df) rows /\
  (forall f, is_nan f = true -> site_type (VFloat f) = Ok "Macro").
Proof.
  intro H.
  assert (N : forall f, is_nan f = true -> site_type (VFloat f) = Ok "Macro").
  { intros f Hf. simpl. now rewrite (nan_not_below f Hf). }
  split; auto.
  eapply Forall2_weaken; [exact (report_by_group _ _ _ _ H)|]. simpl.
  intros g out _ (first & rest & col & E & Hh & S & Mi & Ma) first' rest' E' Hna.
  rewrite E in E'. injection E' as <- <-.
  destruct (structure_height first) as [s|z|f]; try discriminate.
  simpl in Hna. rewrite row_value_float, infer_float in Hh.
  rewrite Hh, (N f Hna) in S.
  injection S as S. unfold macro_row. rewrite Mi, Ma, <- S. auto.
Qed.

Lemma C10_missing_height_is_macro_witness :
  Forall2 (fun g out =>
             forall first rest,
               snd g = first :: rest ->
               isna (structure_height first) = true ->
               macro_row out)
          (groupby three_heights) three_heights_rows /\
  (forall f, is_nan f = true -> site_type (VFloat f) = Ok "Macro").
Proof.
  apply (C10_missing_height_is_macro (py := CPython.text) three_heights
           "Videotron." "QC").
  vm_compute. reflexivity.
Defined.

(* ================================================================== *)
(** * Further lemmas *)

(** ** Replacing text *)

Lemma string_app_assoc (a b c : string) : ((a ++ b) ++ c = a ++ (b ++ c))%string.
Proof. induction a; simpl; congruence. Qed.

Lemma string_app_length (a b : string) :
  String.length (a ++ b)%string = (String.length a + String.length b)%nat.
Proof. induction a; simpl; auto. Qed.

Lemma prefix_app a v : prefix a (a ++ v)%string = true.
Proof.
  induction a as [|c a IH]; simpl; [now destruct v|].
  destruct (ascii_dec c c); [assumption | congruence].
Qed.

Lemma prefix_split a s : prefix a s = true -> exists v, s = (a ++ v)%string.
Proof.
  revert s. induction a as [|c a IH]; intros s H; simpl.
  - now exists s.
  - destruct s as [|d s]; simpl in H; [discriminate|].
    destruct (ascii_dec c d) as [->|]; [|discriminate].
    destruct (IH s H) as [v ->]. now exists v.
Qed.

(** Passing over the rest of an occurrence. *)
Lemma replace_from_skip old new u v :
  replace_from old new (String.length u) (u ++ v)%string = replace_from old new 0 v.
Proof. induction u as [|c u IH]; simpl; auto; now destruct v. Qed.

Lemma replace_match c old new v :
  replace (String c old) new (String c old ++ v)%string
  = (new ++ replace (String c old) new v)%string.
Proof.
  unfold replace. cbn [append replace_from].
  change (String c (old ++ v)%string) with (String c old ++ v)%string.
  rewrite prefix_app. f_equal.
  assert (L : (String.length (String c old) - 1 = String.length old)%nat)
    by (simpl; lia).
  rewrite L. apply replace_from_skip.
Qed.

Lemma replace_other old new c s :
  prefix old (String c s) = false ->
  replace old new (String c s) = String c (replace old new s).
Proof. unfold replace. cbn [replace_from]. now intros ->. Qed.

Lemma replace_empty old new : replace old new "" = "".
Proof. reflexivity. Qed.

(** A property of [replace old new s], shown by following the scan. *)
Lemma replace_ind c old new (P : string -> string -> Prop) :
  P "" "" ->
  (forall v r, P v r -> P (String c old ++ v)%string (new ++ r)%string) ->
  (forall d s r, prefix (String c old) (String d s) = false ->
                 P s r -> P (String d s) (String d r)) ->
  forall s, P s (replace (String c old) new s).
Proof.
  intros P0 Pm Po s.
  remember (String.length s) as n eqn:Hn.
  revert s Hn. induction n as [n IH] using lt_wf_ind. intros s Hn.
  destruct s as [|d s]; [exact P0|].
  destruct (prefix (String c old) (String d s)) eqn:E.
  - destruct (prefix_split _ _ E) as [v Hv]. rewrite Hv, replace_match.
    apply Pm. apply (IH (String.length v)); auto.
    rewrite Hn, Hv. cbn [append String.length]. rewrite string_app_length. lia.
  - rewrite (replace_other _ _ _ _ E). apply Po; auto.
    apply (IH (String.length s)); auto. rewrite Hn. simpl. lia.
Qed.

Lemma replace_cases c old new s :
  s = "" \/
  (exists v, s = (String c old ++ v)%string /\
             replace (String c old) new s
             = (new ++ replace (String c old) new v)%string) \/
  (exists d s', s = String d s' /\ prefix (String c old) s = false /\
                replace (String c old) new s
                = String d (replace (String c old) new s')).
Proof.
  destruct s as [|d s]; auto. right.
  destruct (prefix (String c old) (String d s)) eqn:E.
  - left. destruct (prefix_split _ _ E) as [v ->]. exists v.
    split; auto. apply replace_match.
  - right. exists d, s. repeat split; auto. now apply replace_other.
Qed.

Lemma prefix_longer a s x : prefix a s = true -> prefix a (s ++ x)%string = true.
Proof.
  intro H. destruct (prefix_split _ _ H) as [v ->].
  rewrite string_app_assoc. apply prefix_app.
Qed.

(** A text that has no [sep] and starts [s1 ++ sep ...] lies within [s1]. *)
Lemma prefix_before_separator old sep : forall s1 s2,
  ~ In sep (list_ascii_of_string old) ->
  prefix old (s1 ++ String sep s2)%string = true ->
  exists w, s1 = (old ++ w)%string.
Proof.
  induction old as [|o old IH]; intros s1 s2 Hsep H.
  - now exists s1.
  - destruct s1 as [|d s1]; simpl in H.
    + destruct (ascii_dec o sep) as [->|]; [|discriminate].
      exfalso. apply Hsep. now left.
    + destruct (ascii_dec o d) as [->|]; [|discriminate].
      destruct (IH s1 s2) as [w ->]; auto.
      * intro Hin. apply Hsep. now right.
      * now exists w.
Qed.

(** Replacing a text that does not hold the separator goes part by part. *)
Lemma replace_across c old new sep s2 : forall s1,
  ~ In sep (list_ascii_of_string (String c old)) ->
  replace (String c old) new (s1 ++ String sep s2)%string
  = (replace (String c old) new s1
     ++ String sep (replace (String c old) new s2))%string.
Proof.
  intros s1 Hsep.
  remember (String.length s1) as n eqn:Hn.
  revert s1 Hn. induction n as [n IH] using lt_wf_ind. intros s1 Hn.
  destruct s1 as [|d s1].
  - cbn [append]. rewrite replace_other; [reflexivity|].
    simpl. destruct (ascii_dec c sep) as [->|]; auto.
    exfalso. apply Hsep. now left.
  - destruct (prefix (String c old) (String d s1 ++ String sep s2)%string) eqn:E.
    + destruct (prefix_before_separator _ _ _ _ Hsep E) as [w Hw].
      rewrite Hw, string_app_assoc, !replace_match, string_app_assoc.
      f_equal. apply (IH (String.length w)); auto.
      rewrite Hn, Hw. cbn [append String.length]. rewrite string_app_length. lia.
    + assert (E' : prefix (String c old) (String d s1) = false).
      { destruct (prefix (String c old) (String d s1)) eqn:E'; auto.
        rewrite (prefix_longer _ _ _ E') in E. discriminate. }
      cbn [append] in *. rewrite (replace_other _ _ _ _ E), (replace_other _ _ _ _ E').
      cbn [append]. f_equal. apply (IH (String.length s1)); auto.
      rewrite Hn. simpl. lia.
Qed.

Lemma replace_join c old new sep l :
  ~ In sep (list_ascii_of_string (String c old)) ->
  replace (String c old) new (join (String sep "") l)
  = join (String sep "") (map (replace (String c old) new) l).
Proof.
  intro Hsep. induction l as [|s l IH]; [reflexivity|].
  destruct l as [|s' l]; [reflexivity|].
  change (join (String sep "") (s :: s' :: l))
    with (s ++ String sep (join (String sep "") (s' :: l)))%string.
  rewrite replace_across by assumption. rewrite IH. reflexivity.
Qed.

(** ** No LTE is left *)

Lemma prefix_cons a s1 b s2 :
  prefix (String a s1) (String b s2) = Ascii.eqb a b && prefix s1 s2.
Proof.
  cbn [prefix]. destruct (ascii_dec a b) as [->|N].
  - now rewrite Ascii.eqb_refl.
  - apply Ascii.eqb_neq in N. now rewrite N.
Qed.

Lemma TE_after_replace s :
  prefix "TE" (replace "LTE" "4G" s) = true -> prefix "TE" s = true.
Proof.
  destruct (replace_cases "L" "TE" "4G" s)
    as [->|[(v & -> & E)|(d & s' & -> & _ & E)]]; [auto | | ]; rewrite E.
  - discriminate.
  - rewrite !prefix_cons. destruct (Ascii.eqb "T" d); [|discriminate].
    cbn [andb].
    destruct (replace_cases "L" "TE" "4G" s')
      as [->|[(v & -> & E')|(d' & s'' & -> & _ & E')]].
    + discriminate.
    + rewrite E'. discriminate.
    + rewrite E', !prefix_cons. destruct (Ascii.eqb "E" d'); cbn [andb]; auto.
      intros _. now destruct s''.
Qed.

Lemma replace_LTE_gone s : occurs "LTE" (replace "LTE" "4G" s) = false.
Proof.
  revert s.
  enough (H : forall s, replace "LTE" "4G" s = replace "LTE" "4G" s ->
                        occurs "LTE" (replace "LTE" "4G" s) = false)
    by (intro s; now apply H).
  apply (replace_ind "L" "TE" "4G"
           (fun s r => r = replace "LTE" "4G" s -> occurs "LTE" r = false)).
  - reflexivity.
  - intros v r IHr E.
    assert (Hr : r = replace "LTE" "4G" v).
    { rewrite (replace_match "L" "TE" "4G" v) in E. cbn [append] in E. congruence. }
    cbn [append occurs]. rewrite (IHr Hr). reflexivity.
  - intros d s r Hp IHr E. rewrite (replace_other _ _ _ _ Hp) in E.
    injection E as Hr. cbn [occurs]. rewrite (IHr Hr), orb_false_r.
    destruct (prefix "LTE" (String d r)) eqn:P; auto.
    rewrite prefix_cons in P, Hp. destruct (Ascii.eqb "L" d); [|discriminate].
    cbn [andb] in P, Hp.
    rewrite Hr in P. apply TE_after_replace in P. congruence.
Qed.

(** ** Replacing one character *)

Lemma prefix_empty s : prefix "" s = true.
Proof. now destruct s. Qed.

Lemma prefix_tilde c s : prefix "~" (String c s) = Ascii.eqb c "~".
Proof.
  rewrite prefix_cons, Ascii.eqb_sym, prefix_empty. apply andb_true_r.
Qed.

Lemma replace_tilde_cons c s :
  replace "~" "|" (String c s)
  = String (if Ascii.eqb c "~" then "|"%char else c) (replace "~" "|" s).
Proof.
  unfold replace. cbn [replace_from]. rewrite prefix_tilde.
  now destruct (Ascii.eqb c "~").
Qed.

Lemma replace_tilde_app a b :
  replace "~" "|" (a ++ b)%string
  = (replace "~" "|" a ++ replace "~" "|" b)%string.
Proof.
  induction a as [|c a IH]; [reflexivity|].
  cbn [append]. rewrite !replace_tilde_cons, IH. reflexivity.
Qed.

Lemma replace_tilde_gone s : occurs "~" (replace "~" "|" s) = false.
Proof.
  induction s as [|c s IH]; [reflexivity|].
  rewrite replace_tilde_cons. cbn [occurs]. rewrite IH, orb_false_r, prefix_tilde.
  destruct (Ascii.eqb_spec c "~") as [->|N]; [reflexivity|].
  now apply Ascii.eqb_neq.
Qed.

Lemma replace_tilde_none s : occurs "~" s = false -> replace "~" "|" s = s.
Proof.
  induction s as [|c s IH]; [reflexivity|].
  cbn [occurs]. intro H. apply orb_false_iff in H. destruct H as [P O].
  rewrite prefix_tilde in P. now rewrite replace_tilde_cons, (IH O), P.
Qed.

Lemma replace_tilde_join l :
  replace "~" "|" (join "~" l) = join "|" (map (replace "~" "|") l).
Proof.
  induction l as [|s l IH]; [reflexivity|].
  destruct l as [|s' l]; [reflexivity|].
  change (join "~" (s :: s' :: l)) with (s ++ "~" ++ join "~" (s' :: l))%string.
  rewrite !replace_tilde_app, IH. reflexivity.
Qed.

(** ** More on the loop and on the reshaping *)

Lemma Forall2_In_left {A B : Type} (R : A -> B -> Prop) l l' a :
  Forall2 R l l' -> In a l -> exists b, In b l' /\ R a b.
Proof.
  induction 1 as [|x y l l' Hxy _ IH]; intros Hin; [destruct Hin|].
  destruct Hin as [->|Hin].
  - exists y. split; auto. now left.
  - destruct (IH Hin) as (b & Hb & Rb). exists b. split; auto. now right.
Qed.

Lemma Forall2_In_right {A B : Type} (R : A -> B -> Prop) l l' b :
  Forall2 R l l' -> In b l' -> exists a, In a l /\ R a b.
Proof.
  induction 1 as [|x y l l' Hxy _ IH]; intros Hin; [destruct Hin|].
  destruct Hin as [->|Hin].
  - exists x. split; auto. now left.
  - destruct (IH Hin) as (a & Ha & Ra). exists a. split; auto. now right.
Qed.

Lemma Forall2_tagged {A B : Type} (R : A -> B -> Prop) l l' :
  Forall2 R l l' -> forall all, incl l' all ->
  Forall2 (fun a b => In b all /\ R a b) l l'.
Proof.
  induction 1 as [|x y l l' Hxy _ IH]; intros all Hall; constructor.
  - split; auto. apply Hall. now left.
  - apply IH. intros b Hb. apply Hall. now right.
Qed.

Lemma Forall2_both {A B : Type} (R S : A -> B -> Prop) l l' :
  Forall2 R l l' -> Forall2 S l l' -> Forall2 (fun a b => R a b /\ S a b) l l'.
Proof.
  induction 1 as [|x y l l' Hxy _ IH]; intro HS; inversion HS; subst;
    constructor; auto.
Qed.

Lemma mapM_cases {A B : Type} (f : A -> result B) l e :
  (forall a, In a l -> (exists b, f a = Ok b) \/ f a = Raise e) ->
  (exists l', mapM f l = Ok l') \/ mapM f l = Raise e.
Proof.
  induction l as [|a l IH]; intro H; simpl; [left; now exists []|].
  destruct (H a) as [[b Hb]|Hb]; [now left| |]; rewrite Hb; simpl; auto.
  destruct IH as [[bs Hbs]|Hbs]; [intros; apply H; now right| |];
    rewrite Hbs; simpl; auto.
  left. now exists (b :: bs).
Qed.

Lemma filter_map_swap {A B : Type} (f : A -> B) (p : B -> bool) l :
  filter p (map f l) = map f (filter (fun a => p (f a)) l).
Proof.
  induction l as [|a l IH]; simpl; auto.
  destruct (p (f a)); simpl; now rewrite IH.
Qed.

Lemma number_infer col c : number (infer col c) = number c.
Proof. unfold infer. destruct (float64_column col), c; reflexivity. Qed.

Lemma is_number_infer col c : is_number (infer col c) = is_number c.
Proof. unfold infer. destruct (float64_column col), c; reflexivity. Qed.

Lemma same_value_row col fr c : same_value c (infer col (row_value fr c)).
Proof.
  unfold infer, row_value, same_value.
  destruct fr, (float64_column col), c; simpl; eauto.
Qed.

Lemma site_type_result x :
  (exists ty, site_type x = Ok ty) \/ site_type x = Raise TypeError.
Proof. destruct x; simpl; eauto. Qed.

Lemma site_type_text x : is_number x = false -> site_type x = Raise TypeError.
Proof. destruct x; simpl; auto; discriminate. Qed.

(** A reshaped row, field by field. *)
Lemma transform_row_inv province licensee_name a out :
  transform_row province licensee_name a = Ok out ->
  exists ty,
    site_type (Agg.structure_height a) = Ok ty /\
    out = {| Out.Code := Agg.Tier_4_id a;
             Out.Name := " ";
             Out.Province := province;
             Out.Tower_ID := Agg.record_id a;
             Out.Licensee := licensee_name;
             Out.LATITUDE := Agg.latitude a;
             Out.LONGITUDE := Agg.longitude a;
             Out.Height_m := Agg.structure_height a;
             Out.Type_ := ty;
             Out.Micro := marker "Micro" ty;
             Out.Macro := marker "Macro" ty;
             Out.TX_ANT_AZI := Agg.tx_ant_azimuth a;
             Out.SERVICES := replace "~" "|" (Agg.licence_category a);
             Out.TECHNOLOGY := replace "LTE" "4G" (Agg.technology a);
             Out.TR_BW_BLOCS := Agg.bandwidth a;
             Out._4G_BW := Agg._4G_BW a;
             Out._5G_BW := Agg._5G_BW a;
             Out.TX_PWR := Agg.tx_power a |}.
Proof.
  unfold transform_row. destruct (site_type (Agg.structure_height a)) as [ty|e];
    unfold bind; intro H; [|discriminate].
  injection H as <-. now exists ty.
Qed.

Lemma transform_row_result province licensee_name a :
  (exists out, transform_row province licensee_name a = Ok out) \/
  transform_row province licensee_name a = Raise TypeError.
Proof.
  unfold transform_row.
  destruct (site_type_result (Agg.structure_height a)) as [[ty ->]| ->];
    unfold bind; eauto.
Qed.

Section MoreFacts.
Context {py : PyText}.

Lemma sum_bandwidth_shape rows : forall bw4 bw5 b4 b5,
  sum_bandwidth rows bw4 bw5 = Ok (b4, b5) ->
  zero_or_float bw4 -> zero_or_float bw5 ->
  zero_or_float b4 /\ zero_or_float b5.
Proof.
  induction rows as [|row rows IH]; intros bw4 bw5 b4 b5 H S4 S5.
  - injection H as <- <-. auto.
  - rewrite sum_bandwidth_cons in H.
    destruct (py_float (bandwidth row)) as [bw|e]; unfold bind at 1 in H;
      [|discriminate].
    assert (F : forall acc, zero_or_float acc ->
                  exists f, iadd acc bw = Ok (VFloat f)).
    { intros acc [->|Hf]; [simpl; eauto|]. destruct acc; try discriminate.
      simpl. eauto. }
    destruct (has_technology "LTE" row).
    + destruct (F bw4 S4) as [f Hf]. rewrite Hf in H. unfold bind at 1 in H.
      apply (IH _ _ _ _ H); auto. now right.
    + destruct (has_technology "5G" row).
      * destruct (F bw5 S5) as [f Hf]. rewrite Hf in H. unfold bind at 1 in H.
        apply (IH _ _ _ _ H); auto. now right.
      * apply (IH _ _ _ _ H); auto.
Qed.

Lemma aggregate_group_shape fr k g a :
  aggregate_group fr k g = Ok a ->
  zero_or_float (Agg._4G_BW a) /\ zero_or_float (Agg._5G_BW a).
Proof.
  unfold aggregate_group. destruct g as [|first rest]; [discriminate|].
  destruct (sum_bandwidth (first :: rest) (VInt 0) (VInt 0)) as [[b4 b5]|e] eqn:S;
    unfold bind; [|discriminate].
  intro H. injection H as <-. simpl.
  apply (sum_bandwidth_shape _ _ _ _ _ S); now left.
Qed.

Lemma aggregate_group_inv fr k g a :
  aggregate_group fr k g = Ok a ->
  exists first rest,
    g = first :: rest /\
    Agg.Tier_4_id a = row_value fr (Tier_4_id first) /\
    Agg.record_id a = row_value fr (record_id first) /\
    Agg.latitude a = row_value fr (latitude first) /\
    Agg.longitude a = row_value fr (longitude first) /\
    Agg.structure_height a = row_value fr (structure_height first).
Proof.
  unfold aggregate_group. destruct g as [|first rest]; [discriminate|].
  destruct (sum_bandwidth (first :: rest) (VInt 0) (VInt 0)) as [acc|e];
    unfold bind; [|discriminate].
  intro H. injection H as <-. exists first, rest. simpl. auto 10.
Qed.

(** A frame the loop gets through has only bandwidths that convert. *)
Lemma aggregate_parseable df results : aggregate df = Ok results -> parseable df.
Proof.
  intros A r Hr Hn.
  destruct (py_float_result (bandwidth r)) as [H|H]; auto.
  rewrite (aggregate_raise df) in A; [discriminate|]. now exists r.
Qed.

Lemma aggregate_result df :
  (exists results, aggregate df = Ok results) \/ aggregate df = Raise ValueError.
Proof.
  unfold aggregate. apply mapM_cases. intros g Hg.
  apply groupby_In in Hg. destruct Hg as (_ & _ & first & rest & ->).
  apply aggregate_group_result.
Qed.

Lemma groupby_keyed_nonempty df : keyed df <> [] -> groupby df <> [].
Proof.
  intro H. destruct (keyed df) as [|r l] eqn:E; [congruence|].
  assert (Hr : In r (keyed df)) by (rewrite E; now left).
  apply filter_In in Hr. destruct Hr as [Hr Hn].
  destruct (group_keys_cover df r Hr Hn) as (k & Hk & _).
  unfold groupby. destruct (group_keys df); [destruct Hk | discriminate].
Qed.

Lemma groupby_unkeyed df : keyed df = [] -> groupby df = [].
Proof.
  intro H. unfold groupby, group_keys.
  rewrite filter_map_swap. unfold keyed in H. rewrite H. reflexivity.
Qed.

(** The table, row by row, from the groups: each row is the reshaping of
    the row the loop made for the group at the same place. *)
Lemma report_groups df licensee_name province rows :
  report df licensee_name province = Ok rows ->
  exists results,
    aggregate df = Ok results /\
    Forall2 (fun g out =>
               exists a first rest,
                 In a results /\
                 snd g = first :: rest /\
                 aggregate_group (float_rows df) (fst g) (snd g) = Ok a /\
                 sums_by_technology (snd g) a /\
                 joined_in_order (snd g) a /\
                 Agg.record_id a = row_value (float_rows df) (record_id first) /\
                 Agg.Tier_4_id a = row_value (float_rows df) (Tier_4_id first) /\
                 Agg.latitude a = row_value (float_rows df) (latitude first) /\
                 Agg.longitude a = row_value (float_rows df) (longitude first) /\
                 Agg.structure_height a
                 = row_value (float_rows df) (structure_height first) /\
                 transform_row province licensee_name (typed_row results a) = Ok out)
            (groupby df) rows.
Proof.
  intro H. destruct (report_rows _ _ _ _ H) as (results & A & _ & T).
  exists results. split; auto.
  destruct (aggregate_ok df (aggregate_parseable _ _ A)) as (results' & A' & F).
  rewrite A in A'. injection A' as <-.
  pose proof A as M. unfold aggregate in M. apply mapM_Forall2 in M.
  pose proof (Forall2_both _ _ _ _
                (Forall2_tagged _ _ _ M results (incl_refl _)) F) as FM.
  eapply Forall2_weaken; [exact (Forall2_chain _ _ _ _ FM _ T)|].
  simpl. intros g out _ (a & ((Ia & G) & S & J & _) & Tr).
  destruct (aggregate_group_inv _ _ _ _ G)
    as (first & rest & E & Ht & Hr & Hla & Hlo & Hh).
  exists a, first, rest. auto 15.
Qed.
(** How the making of the table can end. *)
Lemma report_outcomes df licensee_name province :
  (exists rows, report df licensee_name province = Ok rows) \/
  (exists e, report df licensee_name province = Raise e /\
             (e = ValueError \/ e = KeyError \/ e = TypeError)).
Proof.
  unfold report.
  destruct (aggregate_result df) as [[results A]|A]; rewrite A; cbn [bind];
    [|right; exists ValueError; auto].
  unfold transform. destruct results as [|a results];
    [right; exists KeyError; auto|].
  assert (C : (exists rows, mapM (transform_row province licensee_name)
                                 (DataFrame_of (a :: results)) = Ok rows) \/
              mapM (transform_row province licensee_name)
                   (DataFrame_of (a :: results)) = Raise TypeError).
  { apply mapM_cases. intros; apply transform_row_result. }
  destruct C as [[rows T]|T]; rewrite T.
  - left. eauto.
  - right. exists TypeError. auto.
Qed.
End MoreFacts.

(* ================================================================== *)
(** * Further properties *)

(** ** How a call ends *)

(** X1: when [float] converts the bandwidth of every row that has a
    [record_id], at least one row has one, and the height of the first row
    of every group is a number, lines 30-81 raise nothing: the table is
    made, with one row for each group. *)
Theorem table_is_made {py : PyText} (df : DataFrame)
    (licensee_name province : string) :
  parseable df ->
  keyed df <> [] ->
  (forall g first rest,
      In g (groupby df) -> snd g = first :: rest ->
      is_number (structure_height first) = true) ->
  exists rows,
    report df licensee_name province = Ok rows /\
    List.length rows = List.length (groupby df).
Proof.
  intros Hp Hk Hh.
  destruct (aggregate_ok df Hp) as (results & A & F).
  assert (N : results <> []).
  { intro Z. subst. inversion F as [E|]. symmetry in E.
    now apply groupby_keyed_nonempty in E. }
  destruct (mapM_total (transform_row province licensee_name) (DataFrame_of results))
    as [rows T].
  { intros a' Ha'. unfold DataFrame_of in Ha'. apply in_map_iff in Ha'.
    destruct Ha' as (a & <- & Ha).
    destruct (Forall2_In_right _ _ _ _ F Ha) as (g & Hg & _ & _ & first & rest & E & _ & H).
    unfold transform_row. simpl.
    destruct (site_type_total
                (infer (map Agg.structure_height results) (Agg.structure_height a)))
      as [ty Hty].
    { rewrite is_number_infer, H, is_number_row_value. eapply Hh; eauto. }
    rewrite Hty. unfold bind. eauto. }
  assert (R : report df licensee_name province = Ok rows).
  { unfold report. rewrite A. unfold bind, transform.
    destruct results; [congruence | exact T]. }
  exists rows. split; auto.
  apply mapM_Forall2, Forall2_length in T. unfold DataFrame_of in T.
  rewrite length_map in T. rewrite <- T. symmetry. eapply Forall2_length; eauto.
Qed.

Lemma table_is_made_witness :
  exists rows,
    report (py := CPython.text) towers_M20_E5015 "TELUS" "QC" = Ok rows /\
    List.length rows = List.length (groupby towers_M20_E5015).
Proof.
  apply (table_is_made (py := CPython.text) towers_M20_E5015).
  - intros r [<-|[<-|[<-|[]]]] _; eexists; reflexivity.
  - discriminate.
  - intros g first rest [<-|[<-|[]]] E; injection E as <- _; reflexivity.
Defined.

(** X2: a frame no row of which has a [record_id] (an empty frame is one)
    makes the call end with [KeyError]: the table has no column
    "Height (m)" to read on line 71. *)
Theorem no_record_id_KeyError {py : PyText} (df : DataFrame)
    (company_name licensee_name province sheet_name : string)
    (file : option Workbook) :
  keyed df = [] ->
  aggregate df = Ok [] /\
  process_company_data df company_name licensee_name province sheet_name file
  = Raise KeyError.
Proof.
  intro H. assert (A : aggregate df = Ok []).
  { unfold aggregate. now rewrite (groupby_unkeyed df H). }
  split; auto. unfold process_company_data, report. now rewrite A.
Qed.

Lemma no_record_id_KeyError_witness :
  aggregate (py := CPython.text)
            [sector (VFloat nan) (VInt 30) (VStr "LTE") (VStr "10 MHz")] = Ok [] /\
  process_company_data (py := CPython.text)
    [sector (VFloat nan) (VInt 30) (VStr "LTE") (VStr "10 MHz")]
    "TELUS" "TELUS" "QC" "TELUS" None
  = Raise KeyError.
Proof.
  apply (no_record_id_KeyError (py := CPython.text)
           [sector (VFloat nan) (VInt 30) (VStr "LTE") (VStr "10 MHz")]).
  reflexivity.
Defined.

(** X3: when all bandwidths convert and the first row of some group has a
    height that is text, the call ends with [TypeError], from the
    comparison of line 71. *)
Theorem text_height_TypeError {py : PyText} (df : DataFrame)
    (company_name licensee_name province sheet_name : string)
    (file : option Workbook) :
  parseable df ->
  (exists g first rest,
      In g (groupby df) /\ snd g = first :: rest /\
      is_number (structure_height first) = false) ->
  process_company_data df company_name licensee_name province sheet_name file
  = Raise TypeError.
Proof.
  intros Hp (g & first & rest & Hg & E & Hh).
  destruct (aggregate_ok df Hp) as (results & A & F).
  destruct (Forall2_In_left _ _ _ _ F Hg) as (a & Ha & _ & _ & first' & rest' & E' & _ & H).
  assert (first' = first) by congruence. subst first'.
  unfold process_company_data, report. rewrite A. unfold bind at 2. unfold transform.
  destruct results as [|a0 results0] eqn:Er; [destruct Ha|]. rewrite <- Er in *.
  rewrite (mapM_raise (transform_row province licensee_name) (DataFrame_of results)
                      TypeError); auto.
  - intros; apply transform_row_result.
  - exists (typed_row results a). split.
    + unfold DataFrame_of. now apply in_map.
    + unfold transform_row. simpl. rewrite site_type_text; auto.
      now rewrite is_number_infer, H, is_number_row_value.
Qed.

Lemma text_height_TypeError_witness :
  process_company_data (py := CPython.text) text_height_tower
    "TELUS" "TELUS" "QC" "TELUS" None
  = Raise TypeError.
Proof.
  apply (text_height_TypeError (py := CPython.text) text_height_tower).
  - intros r [<-|[<-|[]]] _; eexists; reflexivity.
  - exists (VStr "E5015", text_height_tower),
           (sector (VStr "E5015") (VStr "30 m") (VStr "LTE") (VInt 10)),
           [sector (VStr "E5015") (VStr "30 m") (VStr "5G") (VInt 100)].
    repeat split. now left.
Defined.

(** X4: lines 30-81 end with the table or with one of [ValueError],
    [KeyError] and [TypeError]; [iloc[0]] never fails, as no group is
    empty. *)
Theorem table_outcomes {py : PyText} (df : DataFrame)
    (licensee_name province : string) :
  (forall g, In g (groupby df) -> snd g <> []) /\
  ((exists rows, report df licensee_name province = Ok rows) \/
   (exists e,
       report df licensee_name province = Raise e /\
       (e = ValueError \/ e = KeyError \/ e = TypeError))).
Proof.
  split; [|apply report_outcomes].
  intros g Hg. apply groupby_In in Hg. destruct Hg as (_ & _ & first & rest & ->).
  discriminate.
Qed.

(** ** The table *)

Lemma values_length r : List.length (values r) = List.length final_columns.
Proof. reflexivity. Qed.

Lemma infer_zero_or_float col :
  Forall zero_or_float col ->
  (forall c, In c col -> infer col c = VInt 0) \/
  (forall c, In c col -> is_float (infer col c) = true).
Proof.
  intro H. unfold infer. destruct (float64_column col) eqn:E.
  - right. intros c Hc. rewrite Forall_forall in H.
    destruct (H c Hc) as [->|F]; [reflexivity|]. now destruct c.
  - left. intros c Hc. unfold float64_column in E.
    assert (N : forallb is_number col = true).
    { apply forallb_forall. intros x Hx. rewrite Forall_forall in H.
      destruct (H x Hx) as [->|F]; [reflexivity|]. now destruct x. }
    rewrite N in E. simpl in E.
    rewrite Forall_forall in H. destruct (H c Hc) as [->|F]; auto.
    assert (X : existsb is_float col = true) by (apply existsb_exists; eauto).
    congruence.
Qed.

Lemma infer_one_dtype col :
  (forall c c', In c col -> In c' col -> dtype_rank c = dtype_rank c') ->
  forall c, In c col -> infer col c = c.
Proof.
  intros H c Hc. unfold infer. destruct (float64_column col) eqn:E; auto.
  unfold float64_column in E. apply andb_true_iff in E. destruct E as [_ E].
  apply existsb_exists in E. destruct E as (f & Hf & F).
  specialize (H c f Hc Hf). destruct c, f; try discriminate; reflexivity.
Qed.

Section TableFacts.
Context {py : PyText}.

Lemma report_length df licensee_name province rows :
  report df licensee_name province = Ok rows ->
  List.length rows = List.length (groupby df) /\ rows <> [].
Proof.
  intro H. destruct (report_rows _ _ _ _ H) as (results & A & N & T).
  destruct (report_groups _ _ _ _ H) as (results' & _ & F).
  apply Forall2_length in F, T. split; [now symmetry|].
  destruct rows; [|discriminate]. destruct results; [congruence|discriminate].
Qed.

(** X5: the sheet a call writes is a table: its header is the destination
    schema, every row under it has one value for each of the 18 columns,
    and there is one row for each group, at least one. *)
Theorem sheet_is_table (df : DataFrame)
    (company_name licensee_name province sheet_name : string)
    (file : option Workbook) (book : Workbook) :
  process_company_data df company_name licensee_name province sheet_name file
  = Ok book ->
  exists sh,
    find_sheet sheet_name book = Some sh /\
    header sh = final_columns /\
    Forall (fun vs => List.length vs = 18%nat) (body sh) /\
    List.length (body sh) = List.length (groupby df) /\
    body sh <> [].
Proof.
  unfold process_company_data.
  destruct (report df licensee_name province) as [rows|e] eqn:R; cbn [bind];
    [|discriminate].
  intro H. injection H as <-. exists (sheet_of rows).
  destruct (report_length _ _ _ _ R) as [L N].
  split; [apply find_to_excel|]. split; [reflexivity|]. simpl.
  split; [|split].
  - apply Forall_forall. intros vs Hvs. apply in_map_iff in Hvs.
    destruct Hvs as (r & <- & _). reflexivity.
  - now rewrite length_map.
  - destruct rows; [congruence | discriminate].
Qed.

(** X6: in the table, the number in [4G_BW] of a row is the sum of the
    bandwidths of the LTE rows of its group, and the number in [5G_BW] the
    sum over its 5G rows, whatever dtype the columns take. *)
Theorem table_sums (df : DataFrame) (licensee_name province : string)
    (rows : list Out.t) :
  report df licensee_name province = Ok rows ->
  Forall2 (fun g out =>
             exists t4 t5,
               total_bandwidth "LTE" (snd g) = Ok t4 /\
               total_bandwidth "5G" (snd g) = Ok t5 /\
               number (Out._4G_BW out) = Some t4 /\
               number (Out._5G_BW out) = Some t5)
          (groupby df) rows.
Proof.
  intro H. destruct (report_groups _ _ _ _ H) as (results & _ & F).
  eapply Forall2_weaken; [exact F|]. simpl.
  intros g out _ (a & first & rest & _ & _ & _ & S & _ & _ & _ & _ & _ & _ & T).
  destruct S as (t4 & t5 & T4 & T5 & N4 & N5 & _).
  apply transform_row_inv in T. destruct T as (ty & _ & ->). simpl.
  exists t4, t5. rewrite !number_infer. auto.
Qed.

(** X7: a bandwidth column of the table never mixes integers and floats:
    either every row has the integer 0 in it, or every row has a float. *)
Theorem bandwidth_columns_one_dtype (df : DataFrame)
    (licensee_name province : string) (rows : list Out.t) :
  report df licensee_name province = Ok rows ->
  (Forall (fun out => Out._4G_BW out = VInt 0) rows \/
   Forall (fun out => is_float (Out._4G_BW out) = true) rows) /\
  (Forall (fun out => Out._5G_BW out = VInt 0) rows \/
   Forall (fun out => is_float (Out._5G_BW out) = true) rows).
Proof.
  intro H. destruct (report_groups _ _ _ _ H) as (results & A & F).
  assert (S : forall a, In a results ->
                zero_or_float (Agg._4G_BW a) /\ zero_or_float (Agg._5G_BW a)).
  { intros a Ha. unfold aggregate in A. apply mapM_Forall2 in A.
    destruct (Forall2_In_right _ _ _ _ A Ha) as (g & _ & G).
    now apply aggregate_group_shape in G. }
  assert (R : Forall (fun out =>
                exists a, In a results /\
                  Out._4G_BW out = infer (map Agg._4G_BW results) (Agg._4G_BW a) /\
                  Out._5G_BW out = infer (map Agg._5G_BW results) (Agg._5G_BW a))
                rows).
  { eapply Forall2_right; [exact F|]. simpl.
    intros g out (a & first & rest & Ha & _ & _ & _ & _ & _ & _ & _ & _ & _ & T).
    apply transform_row_inv in T. destruct T as (ty & _ & ->). simpl. eauto. }
  split.
  - destruct (infer_zero_or_float (map Agg._4G_BW results)) as [Z|Z].
    + apply Forall_forall. intros c Hc. apply in_map_iff in Hc.
      destruct Hc as (a & <- & Ha). apply S, Ha.
    + left. eapply Forall_impl; [|exact R]. simpl.
      intros out (a & Ha & -> & _). apply Z. now apply in_map.
    + right. eapply Forall_impl; [|exact R]. simpl.
      intros out (a & Ha & -> & _). apply Z. now apply in_map.
  - destruct (infer_zero_or_float (map Agg._5G_BW results)) as [Z|Z].
    + apply Forall_forall. intros c Hc. apply in_map_iff in Hc.
      destruct Hc as (a & <- & Ha). apply S, Ha.
    + left. eapply Forall_impl; [|exact R]. simpl.
      intros out (a & Ha & _ & ->). apply Z. now apply in_map.
    + right. eapply Forall_impl; [|exact R]. simpl.
      intros out (a & Ha & _ & ->). apply Z. now apply in_map.
Qed.

(** X8: the [TECHNOLOGY] text of a row is the technology texts of the rows
    of its group, each with its "LTE" replaced by "4G", in row order and
    joined by "~": the replacement of line 75 never reaches across a "~". *)
Theorem technology_text (df : DataFrame) (licensee_name province : string)
    (rows : list Out.t) :
  report df licensee_name province = Ok rows ->
  Forall2 (fun g out =>
             Out.TECHNOLOGY out
             = join "~" (map (fun r => replace "LTE" "4G" (py_str (technology r)))
                             (snd g)))
          (groupby df) rows.
Proof.
  intro H. destruct (report_groups _ _ _ _ H) as (results & _ & F).
  eapply Forall2_weaken; [exact F|]. simpl.
  intros g out _ (a & first & rest & _ & _ & _ & _ & J & _ & _ & _ & _ & _ & T).
  destruct J as (_ & _ & J & _).
  apply transform_row_inv in T. destruct T as (ty & _ & ->). simpl.
  rewrite J, (replace_join "L" "TE" "4G" "~"), map_map; [reflexivity|].
  simpl. intros [E|[E|[E|[]]]]; discriminate.
Qed.

(** X9: no [TECHNOLOGY] text of the table has "LTE" in it. *)
Theorem technology_without_LTE (df : DataFrame) (licensee_name province : string)
    (rows : list Out.t) :
  report df licensee_name province = Ok rows ->
  Forall (fun out => occurs "LTE" (Out.TECHNOLOGY out) = false) rows.
Proof.
  intro H. destruct (report_rows _ _ _ _ H) as (results & _ & _ & T).
  eapply Forall2_right; [exact T|]. simpl. intros a out Tr.
  apply transform_row_inv in Tr. destruct Tr as (ty & _ & ->). simpl.
  apply replace_LTE_gone.
Qed.

(** X10: the [SERVICES] text of a row is the licence categories of the rows
    of its group, in row order, joined by "|", a "~" inside a category
    becoming "|" as well; so the text has no "~", and when no category has
    one it is the categories, unchanged, joined by "|". *)
Theorem services_text (df : DataFrame) (licensee_name province : string)
    (rows : list Out.t) :
  report df licensee_name province = Ok rows ->
  Forall2 (fun g out =>
             Out.SERVICES out
             = join "|" (map (fun r => replace "~" "|" (py_str (licence_category r)))
                             (snd g)) /\
             occurs "~" (Out.SERVICES out) = false /\
             ((forall r, In r (snd g) ->
                         occurs "~" (py_str (licence_category r)) = false) ->
              Out.SERVICES out
              = join "|" (map (fun r => py_str (licence_category r)) (snd g))))
          (groupby df) rows.
Proof.
  intro H. destruct (report_groups _ _ _ _ H) as (results & _ & F).
  eapply Forall2_weaken; [exact F|]. simpl.
  intros g out _ (a & first & rest & _ & _ & _ & _ & J & _ & _ & _ & _ & _ & T).
  destruct J as (J & _).
  apply transform_row_inv in T. destruct T as (ty & _ & ->). simpl.
  rewrite J, replace_tilde_join, map_map.
  split; [reflexivity|]. split.
  - rewrite <- map_map, <- replace_tilde_join. apply replace_tilde_gone.
  - intro N. f_equal. apply map_ext_in. intros r Hr.
    now apply replace_tilde_none, N.
Qed.

(** X11: the other fields of a row come from its group: the site fields are
    those of the first row of the group (an integer may show as the float
    of the same number), the azimuths, bandwidths and powers are the texts
    of the rows in row order, delimited by "~", and [Name], [Province] and
    [Licensee] are the blank and the two texts given by the caller. *)
Theorem row_from_group (df : DataFrame) (licensee_name province : string)
    (rows : list Out.t) :
  report df licensee_name province = Ok rows ->
  Forall2 (fun g out =>
             exists first rest,
               snd g = first :: rest /\
               same_value (Tier_4_id first) (Out.Code out) /\
               same_value (record_id first) (Out.Tower_ID out) /\
               same_value (latitude first) (Out.LATITUDE out) /\
               same_value (longitude first) (Out.LONGITUDE out) /\
               same_value (structure_height first) (Out.Height_m out) /\
               Out.TX_ANT_AZI out
               = String.concat "~" (map (fun r => py_str (tx_ant_azimuth r)) (snd g)) /\
               Out.TR_BW_BLOCS out
               = String.concat "~" (map (fun r => py_str (bandwidth r)) (snd g)) /\
               Out.TX_PWR out
               = String.concat "~" (map (fun r => py_str (tx_power r)) (snd g)) /\
               Out.Name out = " " /\
               Out.Province out = province /\
               Out.Licensee out = licensee_name)
          (groupby df) rows.
Proof.
  intro H. destruct (report_groups _ _ _ _ H) as (results & _ & F).
  eapply Forall2_weaken; [exact F|]. simpl.
  intros g out _ (a & first & rest & _ & E & _ & _ & J & Hr & Ht & Hla & Hlo & Hh & T).
  destruct J as (_ & Ja & _ & Jb & Jp).
  apply transform_row_inv in T. destruct T as (ty & _ & ->). simpl.
  exists first, rest. rewrite Ht, Hr, Hla, Hlo, Hh, Ja, Jb, Jp.
  repeat split; auto using same_value_row; symmetry; apply concat_join.
Qed.
End TableFacts.

Lemma sheet_is_table_witness :
  exists sh,
    find_sheet "TELUS"
      (to_excel (Some old_book) "TELUS" (sheet_of telus_rows)) = Some sh /\
    header sh = final_columns /\
    Forall (fun vs => List.length vs = 18%nat) (body sh) /\
    List.length (body sh) = List.length (groupby towers_M20_E5015) /\
    body sh <> [].
Proof.
  apply (sheet_is_table (py := CPython.text) towers_M20_E5015
           "TELUS" "TELUS" "QC" "TELUS" (Some old_book)).
  vm_compute. reflexivity.
Defined.

Lemma table_sums_witness :
  Forall2 (fun g out =>
             exists t4 t5,
               total_bandwidth (py := CPython.text) "LTE" (snd g) = Ok t4 /\
               total_bandwidth (py := CPython.text) "5G" (snd g) = Ok t5 /\
               number (Out._4G_BW out) = Some t4 /\
               number (Out._5G_BW out) = Some t5)
          (groupby towers_M20_E5015) telus_rows.
Proof.
  apply (table_sums (py := CPython.text) towers_M20_E5015 "TELUS" "QC").
  vm_compute. reflexivity.
Defined.

Lemma bandwidth_columns_one_dtype_witness :
  (Forall (fun out => Out._4G_BW out = VInt 0) telus_rows \/
   Forall (fun out => is_float (Out._4G_BW out) = true) telus_rows) /\
  (Forall (fun out => Out._5G_BW out = VInt 0) telus_rows \/
   Forall (fun out => is_float (Out._5G_BW out) = true) telus_rows).
Proof.
  apply (bandwidth_columns_one_dtype (py := CPython.text) towers_M20_E5015
           "TELUS" "QC").
  vm_compute. reflexivity.
Defined.

Lemma technology_text_witness :
  Forall2 (fun g out =>
             Out.TECHNOLOGY out
             = join "~" (map (fun r => replace "LTE" "4G"
                                         (py_str (py := CPython.text) (technology r)))
                             (snd g)))
          (groupby towers_M20_E5015) telus_rows.
Proof.
  apply (technology_text (py := CPython.text) towers_M20_E5015 "TELUS" "QC").
  vm_compute. reflexivity.
Defined.

Lemma technology_without_LTE_witness :
  Forall (fun out => occurs "LTE" (Out.TECHNOLOGY out) = false) telus_rows.
Proof.
  apply (technology_without_LTE (py := CPython.text) towers_M20_E5015 "TELUS" "QC").
  vm_compute. reflexivity.
Defined.

Lemma services_text_witness :
  Forall2 (fun g out =>
             Out.SERVICES out
             = join "|" (map (fun r => replace "~" "|"
                                         (py_str (py := CPython.text)
                                                 (licence_category r)))
                             (snd g)) /\
             occurs "~" (Out.SERVICES out) = false /\
             ((forall r, In r (snd g) ->
                         occurs "~" (py_str (py := CPython.text)
                                            (licence_category r)) = false) ->
              Out.SERVICES out
              = join "|" (map (fun r => py_str (py := CPython.text)
                                               (licence_category r)) (snd g))))
          (groupby towers_M20_E5015) telus_rows.
Proof.
  apply (services_text (py := CPython.text) towers_M20_E5015 "TELUS" "QC").
  vm_compute. reflexivity.
Defined.

Lemma row_from_group_witness :
  Forall2 (fun g out =>
             exists first rest,
               snd g = first :: rest /\
               same_value (Tier_4_id first) (Out.Code out) /\
               same_value (record_id first) (Out.Tower_ID out) /\
               same_value (latitude first) (Out.LATITUDE out) /\
               same_value (longitude first) (Out.LONGITUDE out) /\
               same_value (structure_height first) (Out.Height_m out) /\
               Out.TX_ANT_AZI out
               = String.concat "~" (map (fun r => py_str (py := CPython.text)
                                                         (tx_ant_azimuth r)) (snd g)) /\
               Out.TR_BW_BLOCS out
               = String.concat "~" (map (fun r => py_str (py := CPython.text)
                                                         (bandwidth r)) (snd g)) /\
               Out.TX_PWR out
               = String.concat "~" (map (fun r => py_str (py := CPython.text)
                                                         (tx_power r)) (snd g)) /\
               Out.Name out = " " /\
               Out.Province out = "QC" /\
               Out.Licensee out = "TELUS")
          (groupby numbered_towers) numbered_rows.
Proof.
  apply (row_from_group (py := CPython.text) numbered_towers "TELUS" "QC").
  vm_compute. reflexivity.
Defined.

(** ** The order of the table *)

Section OrderFacts.
Context {py : PyText}.

Lemma results_in_key_order df results :
  aggregate df = Ok results ->
  float_rows df = false ->
  Forall2 (fun g a =>
             exists first rest,
               snd g = first :: rest /\ has_key (fst g) first /\
               Agg.record_id a = record_id first)
          (groupby df) results /\
  StronglySorted ascending (map Agg.record_id results).
Proof.
  intros A Fr. pose proof A as M. unfold aggregate in M. apply mapM_Forall2 in M.
  rewrite Fr in M.
  assert (P : Forall2 (fun g a =>
                exists first rest,
                  snd g = first :: rest /\ has_key (fst g) first /\
                  Agg.record_id a = record_id first)
              (groupby df) results).
  { eapply Forall2_weaken; [exact M|]. simpl. intros g a Hg Ha.
    destruct (aggregate_group_inv _ _ _ _ Ha) as (first & rest & E & _ & R & _).
    exists first, rest. split; auto. split; auto.
    apply groupby_In in Hg. destruct Hg as (_ & Eg & _).
    assert (X : group_rows df (fst g) = first :: rest)
      by (transitivity (snd g); [symmetry; exact Eg | exact E]).
    apply (group_rows_has_key df). rewrite X. now left. }
  split; auto.
  apply (ascending_same_values (map fst (groupby df)));
    [|rewrite groupby_keys; apply group_keys_ascending].
  clear -P. induction P as [|g a gs rs (first & rest & _ & (E & _) & R) _ IH];
    simpl; constructor; auto.
  rewrite R. exact E.
Qed.

(** X12: when the [record_id]s of the frame are all text, or all integers,
    or all floats, and the rows of the frame are not rows of floats (the
    frame has a column that is not of numbers, or columns of integers
    only), the [Tower ID] of a row is the [record_id] of the first row of
    its group, a row that has the key of the group, and the rows of the
    table are in ascending order of [Tower ID]. *)
Theorem table_in_tower_order (df : DataFrame) (licensee_name province : string)
    (rows : list Out.t) :
  report df licensee_name province = Ok rows ->
  (forall r r', In r (keyed df) -> In r' (keyed df) ->
                dtype_rank (record_id r) = dtype_rank (record_id r')) ->
  float_rows df = false ->
  Forall2 (fun g out =>
             exists first rest,
               snd g = first :: rest /\ has_key (fst g) first /\
               Out.Tower_ID out = record_id first)
          (groupby df) rows /\
  StronglySorted ascending (map Out.Tower_ID rows).
Proof.
  intros H D Fr. destruct (report_rows _ _ _ _ H) as (results & A & _ & T).
  destruct (results_in_key_order df results A Fr) as (P & S).
  assert (Kd : forall a, In a results ->
                 exists r, In r (keyed df) /\ Agg.record_id a = record_id r).
  { intros a Ha.
    destruct (Forall2_In_right _ _ _ _ P Ha) as (g & Hg & first & rest & E & K & R).
    exists first. split; auto.
    apply groupby_In in Hg. destruct Hg as (_ & Eg & _).
    assert (X : group_rows df (fst g) = first :: rest)
      by (transitivity (snd g); [symmetry; exact Eg | exact E]).
    assert (Hin : In first (group_rows df (fst g))) by (rewrite X; now left).
    apply group_rows_In in Hin. apply filter_In. tauto. }
  assert (I : forall a, In a results ->
                infer (map Agg.record_id results) (Agg.record_id a) = Agg.record_id a).
  { intros a Ha. apply infer_one_dtype; [|now apply in_map].
    intros c c' Hc Hc'. apply in_map_iff in Hc, Hc'.
    destruct Hc as (x & <- & Hx). destruct Hc' as (x' & <- & Hx').
    destruct (Kd x Hx) as (r & Hr & ->). destruct (Kd x' Hx') as (r' & Hr' & ->).
    now apply D. }
  assert (T' : Forall2 (fun a out => Out.Tower_ID out = Agg.record_id a) results rows).
  { eapply Forall2_weaken; [exact T|]. simpl. intros a out Ha Tr.
    apply transform_row_inv in Tr. destruct Tr as (ty & _ & ->). simpl. now apply I. }
  split.
  - eapply Forall2_weaken; [exact (Forall2_chain _ _ _ _ P _ T')|]. simpl.
    intros g out _ (a & (first & rest & E & K & R) & Tr).
    exists first, rest. split; auto. split; auto. congruence.
  - assert (E : map Out.Tower_ID rows = map Agg.record_id results).
    { clear -T'. induction T'; simpl; congruence. }
    rewrite E. exact S.
Qed.
End OrderFacts.

Lemma table_in_tower_order_witness :
  Forall2 (fun g out =>
             exists first rest,
               snd g = first :: rest /\ has_key (fst g) first /\
               Out.Tower_ID out = record_id first)
          (groupby towers_M20_E5015) telus_rows /\
  StronglySorted ascending (map Out.Tower_ID telus_rows).
Proof.
  apply (table_in_tower_order (py := CPython.text) towers_M20_E5015 "TELUS" "QC").
  - vm_compute. reflexivity.
  - intros r r' [<-|[<-|[<-|[]]]] [<-|[<-|[<-|[]]]]; reflexivity.
  - reflexivity.
Defined.

(** ** The workbook *)

Lemma to_excel_sheets file sheet_name sh :
  to_excel file sheet_name sh = write_sheet sheet_name sh (sheets file).
Proof. now destruct file. Qed.

Lemma find_write_other n sheet_name sh book :
  n <> sheet_name ->
  find_sheet n (write_sheet sheet_name sh book) = find_sheet n book.
Proof.
  intro N. induction book as [|[m s] book IH]; simpl.
  - destruct (String.eqb_spec sheet_name n); congruence.
  - destruct (String.eqb_spec m sheet_name) as [->|M]; simpl.
    + destruct (String.eqb_spec sheet_name n); congruence.
    + now rewrite IH.
Qed.

Lemma write_sheet_names sheet_name sh book :
  map fst (write_sheet sheet_name sh book)
  = if existsb (fun n => n =? sheet_name) (map fst book) then map fst book
    else map fst book ++ [sheet_name].
Proof.
  induction book as [|[m s] book IH]; simpl; auto.
  destruct (String.eqb_spec m sheet_name) as [->|M]; simpl; auto.
  rewrite IH. now destruct (existsb _ _).
Qed.

Lemma write_sheet_present sheet_name sh book :
  find_sheet sheet_name book = Some sh -> write_sheet sheet_name sh book = book.
Proof.
  induction book as [|[m s] book IH]; simpl; [discriminate|].
  destruct (String.eqb_spec m sheet_name) as [->|M].
  - intro H. now injection H as ->.
  - intro H. now rewrite IH.
Qed.

Section WorkbookFacts.
Context {py : PyText}.

Lemma call_written df company_name licensee_name province sheet_name file book :
  process_company_data df company_name licensee_name province sheet_name file
  = Ok book ->
  exists rows,
    report df licensee_name province = Ok rows /\
    book = write_sheet sheet_name (sheet_of rows) (sheets file).
Proof.
  unfold process_company_data.
  destruct (report df licensee_name province) as [rows|e]; cbn [bind];
    [|discriminate].
  intro H. injection H as <-. exists rows. split; auto. apply to_excel_sheets.
Qed.

(** X13: a call leaves every sheet of another name as it was. *)
Theorem other_sheets_kept (df : DataFrame)
    (company_name licensee_name province sheet_name : string)
    (file : option Workbook) (book : Workbook) (n : string) :
  process_company_data df company_name licensee_name province sheet_name file
  = Ok book ->
  n <> sheet_name ->
  find_sheet n book = find_sheet n (sheets file).
Proof.
  intros H N. destruct (call_written _ _ _ _ _ _ _ H) as (rows & _ & ->).
  now apply find_write_other.
Qed.

(** X14: a call replaces the sheet of its name where it stands, and adds it
    after the others when there is none: the names of the sheets are as
    before, with the new name at the end if it was not among them. *)
Theorem sheet_names_after (df : DataFrame)
    (company_name licensee_name province sheet_name : string)
    (file : option Workbook) (book : Workbook) :
  process_company_data df company_name licensee_name province sheet_name file
  = Ok book ->
  map fst book
  = if existsb (fun n => n =? sheet_name) (map fst (sheets file))
    then map fst (sheets file)
    else map fst (sheets file) ++ [sheet_name].
Proof.
  intro H. destruct (call_written _ _ _ _ _ _ _ H) as (rows & _ & ->).
  apply write_sheet_names.
Qed.

(** X15: calling again with the same frame and names, on the workbook the
    first call wrote, leaves that workbook as it is. *)
Theorem call_again_same_workbook (df : DataFrame)
    (company_name licensee_name province sheet_name : string)
    (file : option Workbook) (book : Workbook) :
  process_company_data df company_name licensee_name province sheet_name file
  = Ok book ->
  process_company_data df company_name licensee_name province sheet_name (Some book)
  = Ok book.
Proof.
  intro H. destruct (call_written _ _ _ _ _ _ _ H) as (rows & R & ->).
  unfold process_company_data. rewrite R. cbn [bind to_excel]. f_equal.
  apply write_sheet_present. apply find_write_sheet.
Qed.

(** ** The script *)

Lemma call_ok df company_name licensee_name province sheet_name file rows :
  report df licensee_name province = Ok rows ->
  call df company_name licensee_name province sheet_name (file, None)
  = (Some (write_sheet sheet_name (sheet_of rows) (sheets file)), None).
Proof.
  intro R. unfold call, process_company_data. rewrite R. cbn [bind].
  now rewrite to_excel_sheets.
Qed.

Lemma call_raise df company_name licensee_name province sheet_name file e :
  report df licensee_name province = Raise e ->
  call df company_name licensee_name province sheet_name (file, None)
  = (file, Some e).
Proof. intro R. unfold call, process_company_data. now rewrite R. Qed.

Lemma call_after_exception df company_name licensee_name province sheet_name file e :
  call df company_name licensee_name province sheet_name (file, Some e)
  = (file, Some e).
Proof. reflexivity. Qed.

(** X16: a run that ends without exception has made the three tables, and
    its workbook holds each company's table under its name; sheets of other
    names are as before, and the names of the sheets are those of before,
    followed by those of Rogers, TELUS and Videotron that were not among
    them, in this order. *)
Theorem script_writes_three_sheets (rogers telus videotron : DataFrame)
    (file : option Workbook) (book : Workbook) :
  main rogers telus videotron file = (Some book, None) ->
  exists rows1 rows2 rows3,
    report rogers "Rogers Communications Canada Inc." "QC" = Ok rows1 /\
    report telus "TELUS" "QC" = Ok rows2 /\
    report videotron "Videotron." "QC" = Ok rows3 /\
    find_sheet "Rogers" book = Some (sheet_of rows1) /\
    find_sheet "TELUS" book = Some (sheet_of rows2) /\
    find_sheet "Videotron" book = Some (sheet_of rows3) /\
    (forall n, ~ In n script_sheets ->
               find_sheet n book = find_sheet n (sheets file)) /\
    map fst book
    = with_name "Videotron"
        (with_name "TELUS" (with_name "Rogers" (map fst (sheets file)))).
Proof.
  unfold main. cbv zeta.
  destruct (report rogers "Rogers Communications Canada Inc." "QC") as [rows1|e1] eqn:R1;
    [|rewrite (call_raise _ _ _ _ _ _ _ R1), !call_after_exception; discriminate].
  rewrite (call_ok _ _ _ _ _ _ _ R1).
  destruct (report telus "TELUS" "QC") as [rows2|e2] eqn:R2;
    [|rewrite (call_raise _ _ _ _ _ (Some _) _ R2), !call_after_exception;
      discriminate].
  rewrite (call_ok _ _ _ _ _ (Some _) _ R2).
  destruct (report videotron "Videotron." "QC") as [rows3|e3] eqn:R3;
    [|rewrite (call_raise _ _ _ _ _ (Some _) _ R3); discriminate].
  rewrite (call_ok _ _ _ _ _ (Some _) _ R3). cbn [sheets].
  intro H. injection H as <-. exists rows1, rows2, rows3.
  split; [reflexivity|]. split; [reflexivity|]. split; [reflexivity|].
  split; [|split; [|split; [|split]]].
  - rewrite !find_write_other by discriminate. apply find_write_sheet.
  - rewrite find_write_other by discriminate. apply find_write_sheet.
  - apply find_write_sheet.
  - intros n N. rewrite !find_write_other; auto;
      intro E; apply N; subst; simpl; auto.
  - unfold with_name. now rewrite !write_sheet_names.
Qed.

(** X17: when the Rogers call has returned and the TELUS table cannot be
    made, the run ends with the exception of the TELUS table, one of
    [ValueError], [KeyError] and [TypeError]: it is raised before line 84,
    so the workbook is as the Rogers call left it, with the TELUS and
    Videotron sheets it had before the run, and the Videotron call is not
    made. *)
Theorem script_stops_at_exception (rogers telus videotron : DataFrame)
    (file : option Workbook) (book1 : Workbook) (e : exn) :
  process_company_data rogers "Rogers" "Rogers Communications Canada Inc." "QC"
                       "Rogers" file = Ok book1 ->
  report telus "TELUS" "QC" = Raise e ->
  main rogers telus videotron file = (Some book1, Some e) /\
  (e = ValueError \/ e = KeyError \/ e = TypeError) /\
  find_sheet "TELUS" book1 = find_sheet "TELUS" (sheets file) /\
  find_sheet "Videotron" book1 = find_sheet "Videotron" (sheets file).
Proof.
  intros H1 R2. destruct (call_written _ _ _ _ _ _ _ H1) as (rows1 & R1 & ->).
  split; [|split; [|split]].
  - unfold main. cbv zeta.
    rewrite (call_ok _ _ _ _ _ _ _ R1), (call_raise _ _ _ _ _ (Some _) _ R2).
    apply call_after_exception.
  - destruct (report_outcomes telus "TELUS" "QC") as [[rows R]|(e' & R & T)];
      rewrite R in R2; [discriminate|]. now injection R2 as <-.
  - now rewrite find_write_other by discriminate.
  - now rewrite find_write_other by discriminate.
Qed.

(** X18: a run that ends without exception can be made again on the
    workbook it wrote: it ends without exception and the workbook is the
    same. *)
Theorem script_again_same_workbook (rogers telus videotron : DataFrame)
    (file : option Workbook) (book : Workbook) :
  main rogers telus videotron file = (Some book, None) ->
  main rogers telus videotron (Some book) = (Some book, None).
Proof.
  unfold main. cbv zeta.
  destruct (report rogers "Rogers Communications Canada Inc." "QC") as [rows1|e1] eqn:R1;
    [|rewrite (call_raise _ _ _ _ _ _ _ R1), !call_after_exception; discriminate].
  rewrite !(call_ok _ _ _ _ _ _ _ R1).
  destruct (report telus "TELUS" "QC") as [rows2|e2] eqn:R2;
    [|rewrite (call_raise _ _ _ _ _ (Some _) _ R2), !call_after_exception;
      discriminate].
  rewrite !(call_ok _ _ _ _ _ (Some _) _ R2).
  destruct (report videotron "Videotron." "QC") as [rows3|e3] eqn:R3;
    [|rewrite (call_raise _ _ _ _ _ (Some _) _ R3); discriminate].
  rewrite !(call_ok _ _ _ _ _ (Some _) _ R3). cbn [sheets].
  intro H. injection H as <-.
  set (b1 := write_sheet "Rogers" (sheet_of rows1) (sheets file)).
  set (b2 := write_sheet "TELUS" (sheet_of rows2) b1).
  set (b3 := write_sheet "Videotron" (sheet_of rows3) b2).
  assert (E1 : write_sheet "Rogers" (sheet_of rows1) b3 = b3).
  { apply write_sheet_present. unfold b3, b2.
    rewrite !find_write_other by discriminate. apply find_write_sheet. }
  assert (E2 : write_sheet "TELUS" (sheet_of rows2) b3 = b3).
  { apply write_sheet_present. unfold b3.
    rewrite find_write_other by discriminate. apply find_write_sheet. }
  assert (E3 : write_sheet "Videotron" (sheet_of rows3) b3 = b3).
  { apply write_sheet_present. apply find_write_sheet. }
  now rewrite E1, E2, E3.
Qed.
End WorkbookFacts.

Lemma other_sheets_kept_witness :
  find_sheet "Notes" (to_excel (Some old_book) "TELUS" (sheet_of telus_rows))
  = find_sheet "Notes" (sheets (Some old_book)).
Proof.
  apply (other_sheets_kept (py := CPython.text) towers_M20_E5015
           "TELUS" "TELUS" "QC" "TELUS" (Some old_book)).
  - vm_compute. reflexivity.
  - discriminate.
Defined.

Lemma sheet_names_after_witness :
  map fst (to_excel None "TELUS" (sheet_of telus_rows))
  = if existsb (fun n => n =? "TELUS") (map fst (sheets None))
    then map fst (sheets None)
    else map fst (sheets None) ++ ["TELUS"].
Proof.
  apply (sheet_names_after (py := CPython.text) towers_M20_E5015
           "TELUS" "TELUS" "QC" "TELUS" None).
  vm_compute. reflexivity.
Defined.

Lemma call_again_same_workbook_witness :
  process_company_data (py := CPython.text) towers_M20_E5015
    "TELUS" "TELUS" "QC" "TELUS"
    (Some (to_excel (Some old_book) "TELUS" (sheet_of telus_rows)))
  = Ok (to_excel (Some old_book) "TELUS" (sheet_of telus_rows)).
Proof.
  apply (call_again_same_workbook (py := CPython.text) towers_M20_E5015
           "TELUS" "TELUS" "QC" "TELUS" (Some old_book)).
  vm_compute. reflexivity.
Defined.

Lemma script_writes_three_sheets_witness :
  exists rows1 rows2 rows3,
    report (py := CPython.text) tower_E5015
           "Rogers Communications Canada Inc." "QC" = Ok rows1 /\
    report (py := CPython.text) towers_M20_E5015 "TELUS" "QC" = Ok rows2 /\
    report (py := CPython.text) three_heights "Videotron." "QC" = Ok rows3 /\
    find_sheet "Rogers" script_book = Some (sheet_of rows1) /\
    find_sheet "TELUS" script_book = Some (sheet_of rows2) /\
    find_sheet "Videotron" script_book = Some (sheet_of rows3) /\
    (forall n, ~ In n script_sheets ->
               find_sheet n script_book = find_sheet n (sheets (Some old_book))) /\
    map fst script_book
    = with_name "Videotron"
        (with_name "TELUS" (with_name "Rogers" (map fst (sheets (Some old_book))))).
Proof.
  apply (script_writes_three_sheets (py := CPython.text)
           tower_E5015 towers_M20_E5015 three_heights (Some old_book)).
  vm_compute. reflexivity.
Defined.

Lemma script_stops_at_exception_witness :
  main (py := CPython.text) tower_E5015 bad_bandwidth three_heights (Some old_book)
  = (Some (to_excel (Some old_book) "Rogers" (sheet_of rogers_rows)),
     Some ValueError) /\
  (ValueError = ValueError \/ ValueError = KeyError \/ ValueError = TypeError) /\
  find_sheet "TELUS" (to_excel (Some old_book) "Rogers" (sheet_of rogers_rows))
  = find_sheet "TELUS" (sheets (Some old_book)) /\
  find_sheet "Videotron" (to_excel (Some old_book) "Rogers" (sheet_of rogers_rows))
  = find_sheet "Videotron" (sheets (Some old_book)).
Proof.
  apply (script_stops_at_exception (py := CPython.text)
           tower_E5015 bad_bandwidth three_heights (Some old_book)).
  - vm_compute. reflexivity.
  - vm_compute. reflexivity.
Defined.

Lemma script_again_same_workbook_witness :
  main (py := CPython.text) tower_E5015 towers_M20_E5015 three_heights
       (Some script_book) = (Some script_book, None).
Proof.
  apply (script_again_same_workbook (py := CPython.text)
           tower_E5015 towers_M20_E5015 three_heights (Some old_book)).
  vm_compute. reflexivity.
Defined.
